(** * gopssst: the X25519 / AES-128-GCM / SHA-256 suite of PSSST (v1pssst.go)

    A shallow embedding of [v1pssst.go].  Byte slices are lists of [Z];
    a slice that Go may hold as [nil] and test against [nil] is an
    [option]; a Go function returning [(value, err)] returns a [result],
    whose third outcome [Panic] is a run-time panic (slice bounds, nonce
    length).  Mutable receivers and the variables captured by the reply
    closures are passed in and handed back explicitly.

    The primitives of the imported packages (curve25519, sha256, aes and
    cipher) are the fields of a class; what the proofs use of them is a
    second class of laws, and a small instance at the end of the
    definitions shows the laws can be met and lets the functions run. *)

From Stdlib Require Import ZArith String Ascii Lia.
From stdpp Require Import base numbers option list.

Local Open Scope string_scope.
Local Open Scope Z_scope.
Local Open Scope list_scope.

(** ** Bytes, slices and outcomes *)

Abbreviation byte := Z (only parsing).
Abbreviation bytes := (list Z) (only parsing).

Inductive error : Type :=
  | PSSSTError (msg : string)        (* &PSSSTError{msg} *)
  | io_EOF                           (* io.EOF *)
  | io_ErrUnexpectedEOF              (* io.ErrUnexpectedEOF *)
  | X25519_error                     (* the error of curve25519.X25519 *)
  | aes_KeySizeError                 (* aes.NewCipher on a bad key length *)
  | cipher_errOpen.                  (* "cipher: message authentication failed" *)

Inductive result (A : Type) : Type :=
  | Ok (a : A)
  | Err (e : error)
  | Panic.
Arguments Ok {A} a.
Arguments Err {A} e.
Arguments Panic {A}.

#[global] Instance result_ret : MRet result := fun A a => Ok a.
#[global] Instance result_bind : MBind result := fun A B f r =>
  match r with
  | Ok a => f a
  | Err e => Err e
  | Panic => Panic
  end.

(** The error return of [curve25519.X25519] as a [result]. *)
Definition ofX25519 (o : option bytes) : result bytes :=
  match o with
  | Some q => Ok q
  | None => Err X25519_error
  end.

(** A slice field used as data: [nil] has no bytes. *)
Definition sliceBytes (o : option bytes) : bytes := default [] o.

(** [s[lo:hi]], with the capacity of [s] taken to be its length. *)
Definition slice (lo hi : nat) (s : bytes) : result bytes :=
  if bool_decide (lo <= hi <= length s)%nat
  then Ok (take (hi - lo) (drop lo s))
  else Panic.

(** [s[lo:]]. *)
Definition sliceFrom (lo : nat) (s : bytes) : result bytes :=
  if bool_decide (lo <= length s)%nat then Ok (drop lo s) else Panic.

(** [make([]byte, n)]. *)
Definition make (n : nat) : bytes := replicate n 0.

(** The contents of [dst] after [copy(dst, src)]: the first
    [min(len(dst), len(src))] bytes are overwritten. *)
Definition copy (dst src : bytes) : bytes :=
  take (length dst) src ++ drop (length src) dst.

(** The contents of [buf] after [copy(buf[lo:hi], src)], for
    [lo <= hi <= len(buf)]. *)
Definition copyInto (buf : bytes) (lo hi : nat) (src : bytes) : bytes :=
  take lo buf ++ copy (take (hi - lo) (drop lo buf)) src ++ drop hi buf.

(** The bytes of a Go string constant. *)
Definition stringBytes (s : string) : bytes :=
  (fun c => Z.of_N (N_of_ascii c)) <$> list_ascii_of_string s.

(** [bytes.Equal]. *)
Definition bytes_Equal (a b : bytes) : bool := bool_decide (a = b).

(** ** Byte sources

    An [io.Reader] is the list of the bytes it will still yield;
    [io.ReadFull] takes [n] of them or fails. *)

Abbreviation Reader := (list Z) (only parsing).

Definition io_ReadFull (r : Reader) (n : nat) : result bytes * Reader :=
  if bool_decide (n <= length r)%nat then (Ok (take n r), drop n r)
  else match r with
       | [] => (Err io_EOF, [])
       | _ => (Err io_ErrUnexpectedEOF, [])
       end.

(** ** The header

    [header], [flagsReply], [flagsClientAuth] and
    [CipherSuiteX25519AESGCM] are declared in another file of the
    package. *)

(** Modelled from the spec: the type [header]; the source fills it
    with the flags and the cipher suite, the wire form has four bytes. *)
Record header : Type := { Flags : Z; CipherSuite : Z }.

(** Modelled from the spec: the constant [flagsReply], bit 0 of the flags. *)
Definition flagsReply : Z := 1.
(** Modelled from the spec: the constant [flagsClientAuth], bit 1 of the flags. *)
Definition flagsClientAuth : Z := 2.
(** Modelled from the spec: the constant [CipherSuiteX25519AESGCM], suite [0x01]. *)
Definition CipherSuiteX25519AESGCM : Z := 1.

(** Modelled from the spec: [binary.Write(buf, binary.BigEndian, h)] on the
    header: two bytes of flags, most significant first, the suite byte, and
    a reserved byte sent as zero.  It cannot fail on a [bytes.Buffer]. *)
Definition binary_Write (buf : bytes) (h : header) : bytes :=
  buf ++ [ (Flags h / 256) mod 256; Flags h mod 256; CipherSuite h mod 256; 0 ].

(** Modelled from the spec: [binary.Read(r, binary.BigEndian, &h)] on the
    header: it needs four bytes and ignores the reserved one. *)
Definition binary_Read (s : bytes) : result header :=
  match s with
  | b0 :: b1 :: b2 :: _ :: _ => Ok {| Flags := b0 * 256 + b1; CipherSuite := b2 |}
  | [] => Err io_EOF
  | _ => Err io_ErrUnexpectedEOF
  end.

(** The flag bits that are neither REPLY nor CLIENT_AUTH. *)
Definition reservedFlags (h : header) : Z :=
  Z.land (Flags h) (Z.lnot (Z.lor flagsReply flagsClientAuth)).

(** ** The primitives of the cipher suite *)

Class Primitives : Type := {
  (** [curve25519.X25519(scalar, point)]; [None] is its error. *)
  X25519 : bytes -> bytes -> option bytes;
  (** [curve25519.Basepoint]. *)
  Basepoint : bytes;
  (** SHA-256 of a message. *)
  sha256_Sum256 : bytes -> bytes;
  (** AES-GCM sealing under a key: nonce, plaintext, additional data. *)
  gcm_seal : bytes -> bytes -> bytes -> bytes -> bytes;
  (** AES-GCM opening under a key: nonce, ciphertext, additional data. *)
  gcm_open : bytes -> bytes -> bytes -> bytes -> option bytes
}.

Class PrimitiveLaws (P : Primitives) : Prop := {
  (** [X25519] takes and returns 32 bytes, and fails on any other length. *)
  X25519_length : forall s p q,
    X25519 s p = Some q -> length s = 32%nat /\ length p = 32%nat /\ length q = 32%nat;
  (** Scalar multiplications commute, errors included. *)
  X25519_comm : forall a b p, X25519 a p ≫= X25519 b = X25519 b p ≫= X25519 a;
  sha256_length : forall m, length (sha256_Sum256 m) = 32%nat;
  gcm_open_seal : forall k n p ad, gcm_open k n (gcm_seal k n p ad) ad = Some p;
  (** A ciphertext shorter than the tag is never opened. *)
  gcm_open_short : forall k n c ad, (length c < 16)%nat -> gcm_open k n c ad = None
}.

Section Suite.
Context {P : Primitives}.

(** *** sha256.New, Write, Sum: the hash object is the bytes written so far. *)
Definition sha256_New : bytes := [].
Definition hash_Write (h data : bytes) : bytes := h ++ data.
Definition hash_Sum (h : bytes) : bytes := sha256_Sum256 h.

(** *** aes.NewCipher, cipher.NewGCM, Seal and Open

    The AEAD object is the key it was made over. *)
Record AEAD : Type := { gcmKey : bytes }.

Definition aes_NewCipher (key : bytes) : result bytes :=
  if bool_decide (length key = 16 \/ length key = 24 \/ length key = 32)%nat
  then Ok key else Err aes_KeySizeError.

Definition cipher_NewGCM (block : bytes) : result AEAD := Ok {| gcmKey := block |}.

(** [Seal] and [Open] panic on a nonce that is not 12 bytes long.  The
    bound of GCM on the length of a message (some 64 GiB) is left out:
    [gcm_seal] is taken to seal a plaintext of any length. *)
Definition Seal (g : AEAD) (nonce plaintext ad : bytes) : result bytes :=
  if bool_decide (length nonce = 12%nat)
  then Ok (gcm_seal (gcmKey g) nonce plaintext ad)
  else Panic.

Definition Open (g : AEAD) (nonce ciphertext ad : bytes) : result bytes :=
  if bool_decide (length nonce = 12%nat)
  then match gcm_open (gcmKey g) nonce ciphertext ad with
       | Some p => Ok p
       | None => Err cipher_errOpen
       end
  else Panic.

(** ** generateX22519Private (lines 29-49) *)

(** Lines 44-46: [priv[0] &= 248], [priv[31] &= 127], [priv[31] |= 64]. *)
Definition clamp (priv : bytes) : bytes :=
  let priv := alter (fun b => Z.land b 248) 0%nat priv in
  let priv := alter (fun b => Z.land b 127) 31%nat priv in
  alter (fun b => Z.lor b 64) 31%nat priv.

(** [random] is the reader passed by the caller ([None] for [nil]),
    [rand_Reader] the package variable [rand.Reader]; both are handed
    back as the call leaves them. *)
Definition generateX22519Private (random : option Reader) (rand_Reader : Reader)
  : result bytes * option Reader * Reader :=
  match random with
  | None =>
      let '(r, rand_Reader') := io_ReadFull rand_Reader 32 in
      (priv ← r; mret (clamp priv), None, rand_Reader')
  | Some rd =>
      let '(r, rd') := io_ReadFull rd 32 in
      (priv ← r; mret (clamp priv), Some rd', rand_Reader)
  end.

(** ** kdfX25519AESGCM128 (lines 63-78) *)
Definition kdfX25519AESGCM128 (dhParam sharedSecret : bytes)
  : result (bytes * bytes * bytes) :=
  let kdfHash := sha256_New in
  let kdfHash := hash_Write kdfHash dhParam in
  let kdfHash := hash_Write kdfHash sharedSecret in
  let derivedBytes := hash_Sum kdfHash in
  key ← slice 0 16 derivedBytes;
  d1 ← slice 16 24 derivedBytes;
  let iv_c := copy (make 8) d1 in
  let iv_c := iv_c ++ stringBytes "RQST" in
  d2 ← slice 24 32 derivedBytes;
  let iv_s := copy (make 8) d2 in
  let iv_s := iv_s ++ stringBytes "RPLY" in
  mret (key, iv_c, iv_s).

(** ** generateX22519Pair (lines 51-61) *)
Definition generateX22519Pair (random : option Reader) (rand_Reader : Reader)
  : result (bytes * bytes) * option Reader * Reader :=
  let '(r, random, rand_Reader) := generateX22519Private random rand_Reader in
  (priv ← r; pub ← ofX25519 (X25519 priv Basepoint); mret (priv, pub),
   random, rand_Reader).

(** ** The two contexts (lines 17-27) *)
Record serverX22519AESGCM128 : Type := {
  ServerPrivateKey : bytes;
  serverPublicKey : option bytes
}.

Record clientX25519AESGCM128 : Type := {
  ServerPublicKey : bytes;
  ClientPrivateKey : option bytes;
  clientPublicKey : option bytes;
  clientServerPublicKey : option bytes
}.

(** ** PackOutgoing (lines 80-184) *)

(** The variables the client's reply closure captures besides [client]:
    [aesgcm] is assigned by the closure, [None] is [nil]. *)
Record clientReplyState : Type := {
  c_aesgcm : option AEAD;
  c_dhParam : bytes;
  c_serverNonce : bytes
}.

(** Lines 93-100: the cached client keys are filled on the first
    authenticated send; each assignment stores what [X25519] returned,
    [nil] with an error. *)
Definition fillClientKeys (client : clientX25519AESGCM128) (clientPrivateKey : bytes)
  : result unit * clientX25519AESGCM128 :=
  match clientPublicKey client with
  | Some _ => (Ok (), client)
  | None =>
      let pub := X25519 clientPrivateKey Basepoint in
      let client := {| ServerPublicKey := ServerPublicKey client;
                       ClientPrivateKey := ClientPrivateKey client;
                       clientPublicKey := pub;
                       clientServerPublicKey := clientServerPublicKey client |} in
      match pub with
      | None => (Err X25519_error, client)
      | Some _ =>
          let shared := X25519 clientPrivateKey (ServerPublicKey client) in
          let client := {| ServerPublicKey := ServerPublicKey client;
                           ClientPrivateKey := ClientPrivateKey client;
                           clientPublicKey := clientPublicKey client;
                           clientServerPublicKey := shared |} in
          match shared with
          | None => (Err X25519_error, client)
          | Some _ => (Ok (), client)
          end
      end
  end.

(** Lines 122-183: key schedule, sealing, and the state of the reply
    closure. *)
Definition sealRequest (requestHeader : header) (dhParam sharedSecret data : bytes)
  : result (bytes * clientReplyState) :=
  '(symetricKey, clientNonce, serverNonce) ← kdfX25519AESGCM128 dhParam sharedSecret;
  block ← aes_NewCipher symetricKey;
  aesgcm ← cipher_NewGCM block;
  let packetBuffer := binary_Write [] requestHeader in
  let packetBuffer := packetBuffer ++ dhParam in
  ad ← slice 0 4 packetBuffer;
  ciphertext ← Seal aesgcm clientNonce data ad;
  let packetBuffer := packetBuffer ++ ciphertext in
  mret (packetBuffer,
        {| c_aesgcm := Some aesgcm; c_dhParam := dhParam; c_serverNonce := serverNonce |}).

(** Lines 89-183, once the session secret is drawn. *)
Definition packWithSecret (client : clientX25519AESGCM128) (data sessionSecret : bytes)
  : result (bytes * clientReplyState) * clientX25519AESGCM128 :=
  let requestHeader := {| Flags := 0; CipherSuite := CipherSuiteX25519AESGCM |} in
  match ClientPrivateKey client with
  | Some clientPrivateKey =>
      let requestHeader := {| Flags := Z.lor (Flags requestHeader) flagsClientAuth;
                              CipherSuite := CipherSuite requestHeader |} in
      let '(filled, client) := fillClientKeys client clientPrivateKey in
      (_ ← filled;
       dhParam ← ofX25519 (X25519 sessionSecret (sliceBytes (clientPublicKey client)));
       sharedSecret ←
         ofX25519 (X25519 sessionSecret (sliceBytes (clientServerPublicKey client)));
       let extendedData := make (length data + 64) in
       let extendedData := copyInto extendedData 0 32 (sliceBytes (clientPublicKey client)) in
       let extendedData := copyInto extendedData 32 64 sessionSecret in
       let extendedData := copyInto extendedData 64 (length extendedData) data in
       sealRequest requestHeader dhParam sharedSecret extendedData,
       client)
  | None =>
      (dhParam ← ofX25519 (X25519 sessionSecret Basepoint);
       sharedSecret ← ofX25519 (X25519 sessionSecret (ServerPublicKey client));
       sealRequest requestHeader dhParam sharedSecret data,
       client)
  end.

(** The session secret always comes from [generateX22519Private(nil)]. *)
Definition PackOutgoing (client : clientX25519AESGCM128) (data : bytes)
    (rand_Reader : Reader)
  : result (bytes * clientReplyState) * clientX25519AESGCM128 * Reader :=
  let '(r, _, rand_Reader) := generateX22519Private None rand_Reader in
  match r with
  | Ok sessionSecret =>
      let '(packed, client) := packWithSecret client data sessionSecret in
      (packed, client, rand_Reader)
  | Err e => (Err e, client, rand_Reader)
  | Panic => (Panic, client, rand_Reader)
  end.

(** The client's reply closure (lines 146-179).  It reads
    [client.clientPublicKey] through the captured pointer, so it is given
    the client context as it is when the closure runs. *)
Definition clientReplyHandler (st : clientReplyState) (client : clientX25519AESGCM128)
    (replyPacketBytes : bytes) : result bytes * clientReplyState :=
  match c_aesgcm st with
  | None => (Err (PSSSTError "reply handler already used"), st)
  | Some aesgcm =>
      match binary_Read replyPacketBytes with
      | Err e => (Err e, st)
      | Panic => (Panic, st)
      | Ok replyHeader =>
          if Z.land (Flags replyHeader) flagsReply =? 0
          then (Err (PSSSTError "Packet is not a reply"), st)
          else if negb (eqb (bool_decide (clientPublicKey client = None))
                            (Z.land (Flags replyHeader) flagsClientAuth =? 0))
          then (Err (PSSSTError "Reply client auth mismatch"), st)
          else if negb (CipherSuite replyHeader =? CipherSuiteX25519AESGCM)
          then (Err (PSSSTError "Unsuported cipher suite"), st)
          else match slice 4 36 replyPacketBytes with
               | Err e => (Err e, st)
               | Panic => (Panic, st)
               | Ok bound =>
                   if negb (bytes_Equal bound (c_dhParam st))
                   then (Err (PSSSTError "Request/reply mismatch"), st)
                   else match (ct ← sliceFrom 36 replyPacketBytes;
                               ad ← slice 0 4 replyPacketBytes;
                               mret (ct, ad)) with
                        | Err e => (Err e, st)
                        | Panic => (Panic, st)
                        | Ok (ct, ad) =>
                            match Open aesgcm (c_serverNonce st) ct ad with
                            | Panic => (Panic, st)
                            | opened =>
                                (opened, {| c_aesgcm := None;
                                            c_dhParam := c_dhParam st;
                                            c_serverNonce := c_serverNonce st |})
                            end
                        end
               end
      end
  end.

(** ** GetServerPublicKey (lines 186-195) *)
Definition GetServerPublicKey (server : serverX22519AESGCM128)
  : result bytes * serverX22519AESGCM128 :=
  match serverPublicKey server with
  | Some key => (Ok key, server)
  | None =>
      let pub := X25519 (ServerPrivateKey server) Basepoint in
      let server := {| ServerPrivateKey := ServerPrivateKey server;
                       serverPublicKey := pub |} in
      (ofX25519 pub, server)
  end.

(** ** UnpackIncoming (lines 197-288) *)

(** The variables the server's reply closure captures.  [dhParam] is a
    sub-slice of the caller's packet; the caller is taken not to overwrite
    the packet before the closure has run. *)
Record serverReplyState : Type := {
  s_aesgcm : option AEAD;
  s_hasClientAuth : bool;
  s_dhParam : bytes;
  s_serverNonce : bytes
}.

(** The locals that are live after the payload is opened (line 239). *)
Record openedRequest : Type := {
  o_hasClientAuth : bool;
  o_dhParam : bytes;
  o_aesgcm : AEAD;
  o_serverNonce : bytes;
  o_payload : bytes
}.

(** Lines 198-239: header checks, key agreement, key schedule, opening. *)
Definition openRequest (server : serverX22519AESGCM128) (packetBytes : bytes)
  : result openedRequest :=
  requestHeader ← binary_Read packetBytes;
  if negb (Z.land (Flags requestHeader) flagsReply =? 0)
  then Err (PSSSTError "Packet is a reply")
  else
    let hasClientAuth := negb (Z.land (Flags requestHeader) flagsClientAuth =? 0) in
    if negb (CipherSuite requestHeader =? CipherSuiteX25519AESGCM)
    then Err (PSSSTError "Unsuported cipher suite")
    else
      dhParam ← slice 4 36 packetBytes;
      sharedSecret ← ofX25519 (X25519 (ServerPrivateKey server) dhParam);
      '(symetricKey, clientNonce, serverNonce) ← kdfX25519AESGCM128 dhParam sharedSecret;
      block ← aes_NewCipher symetricKey;
      aesgcm ← cipher_NewGCM block;
      ct ← sliceFrom 36 packetBytes;
      ad ← slice 0 4 packetBytes;
      payload ← Open aesgcm clientNonce ct ad;
      mret {| o_hasClientAuth := hasClientAuth; o_dhParam := dhParam;
              o_aesgcm := aesgcm; o_serverNonce := serverNonce;
              o_payload := payload |}.

(** Lines 241-257: the client-authentication check and the data returned. *)
Definition checkClientAuth (o : openedRequest) : result (bytes * option bytes) :=
  if o_hasClientAuth o then
    clientPublicKeyBytes ← slice 0 32 (o_payload o);
    ephemeralKey ← slice 32 64 (o_payload o);
    checkClient ← ofX25519 (X25519 ephemeralKey clientPublicKeyBytes);
    if negb (bytes_Equal checkClient (o_dhParam o))
    then Err (PSSSTError "Client authentication failed")
    else
      data ← sliceFrom 64 (o_payload o);
      mret (data, Some clientPublicKeyBytes)
  else mret (o_payload o, None).

Definition UnpackIncoming (server : serverX22519AESGCM128) (packetBytes : bytes)
  : result (bytes * serverReplyState * option bytes) :=
  o ← openRequest server packetBytes;
  '(data, clientPublicKey) ← checkClientAuth o;
  mret (data,
        {| s_aesgcm := Some (o_aesgcm o); s_hasClientAuth := o_hasClientAuth o;
           s_dhParam := o_dhParam o; s_serverNonce := o_serverNonce o |},
        clientPublicKey).

(** The server's reply closure (lines 259-285). *)
Definition serverReplyHandler (st : serverReplyState) (data : bytes)
  : result bytes * serverReplyState :=
  match s_aesgcm st with
  | None => (Err (PSSSTError "reply handler already used"), st)
  | Some aesgcm =>
      let replyHeader := {| Flags := flagsReply; CipherSuite := CipherSuiteX25519AESGCM |} in
      let replyHeader :=
        if s_hasClientAuth st
        then {| Flags := Z.lor (Flags replyHeader) flagsClientAuth;
                CipherSuite := CipherSuite replyHeader |}
        else replyHeader in
      let packetBuffer := binary_Write [] replyHeader in
      let packetBuffer := packetBuffer ++ s_dhParam st in
      match (ad ← slice 0 4 packetBuffer; Seal aesgcm (s_serverNonce st) data ad) with
      | Err e => (Err e, st)
      | Panic => (Panic, st)
      | Ok ciphertext =>
          let packetBuffer := packetBuffer ++ ciphertext in
          (Ok packetBuffer,
           {| s_aesgcm := None; s_hasClientAuth := s_hasClientAuth st;
              s_dhParam := s_dhParam st; s_serverNonce := s_serverNonce st |})
      end
  end.

End Suite.

(** ** Contexts as the package builds them *)

(** Modelled from the spec: the constructor of a client context, which is
    not in this file: the server's public key, an optional client private
    key, and the two cached keys empty until the first authenticated send. *)
Definition newClient (serverPublic : bytes) (clientPrivate : option bytes)
  : clientX25519AESGCM128 :=
  {| ServerPublicKey := serverPublic; ClientPrivateKey := clientPrivate;
     clientPublicKey := None; clientServerPublicKey := None |}.

(** Modelled from the spec: the constructor of a server context, which is
    not in this file: the server's private key, the public key not yet
    computed. *)
Definition newServer (serverPrivate : bytes) : serverX22519AESGCM128 :=
  {| ServerPrivateKey := serverPrivate; serverPublicKey := None |}.

(** What [PackOutgoing] keeps true of the cached client keys: without a
    private key there are none, and with one they are empty or the two
    products of that private key. *)
Definition clientKeysConsistent `{Primitives} (client : clientX25519AESGCM128) : Prop :=
  match ClientPrivateKey client with
  | None => clientPublicKey client = None
  | Some clientPrivateKey =>
      clientPublicKey client = None \/
      (clientPublicKey client = X25519 clientPrivateKey Basepoint /\
       clientServerPublicKey client = X25519 clientPrivateKey (ServerPublicKey client))
  end.

(** The client context after further requests were packed with it, each
    with its payload and the state of [rand.Reader] at the time. *)
Fixpoint packMore `{Primitives} (client : clientX25519AESGCM128)
    (more : list (bytes * Reader)) : clientX25519AESGCM128 :=
  match more with
  | [] => client
  | (data, rand_Reader) :: rest =>
      packMore (snd (fst (PackOutgoing client data rand_Reader))) rest
  end.

(** ** Packets built by another party

    Anyone who knows the server's public key can run the anonymous key
    schedule of [PackOutgoing] on a header and plaintext of their choice. *)
Definition craftRequest `{Primitives} (h : header) (sessionSecret serverPublic data : bytes)
  : result (bytes * clientReplyState) :=
  dhParam ← ofX25519 (X25519 sessionSecret Basepoint);
  sharedSecret ← ofX25519 (X25519 sessionSecret serverPublic);
  sealRequest h dhParam sharedSecret data.

(** ** Running a reply closure several times *)
Fixpoint invokeAll {S I O : Type} (call : S -> I -> O * S) (st : S) (inputs : list I)
  : list O :=
  match inputs with
  | [] => []
  | i :: rest => let '(o, st') := call st i in o :: invokeAll call st' rest
  end.

(** ** [PackOutgoing] as the specification words it

    The specification has the ephemeral scalar drawn from a byte source
    the caller configured, and from the default source otherwise. *)
Definition specPackOutgoing `{Primitives} (injected : option Reader)
    (client : clientX25519AESGCM128) (data : bytes) (rand_Reader : Reader)
  : result (bytes * clientReplyState) * clientX25519AESGCM128 * option Reader * Reader :=
  let '(r, injected, rand_Reader) := generateX22519Private injected rand_Reader in
  match r with
  | Ok sessionSecret =>
      let '(packed, client) := packWithSecret client data sessionSecret in
      (packed, client, injected, rand_Reader)
  | Err e => (Err e, client, injected, rand_Reader)
  | Panic => (Panic, client, injected, rand_Reader)
  end.

(** ** The key schedule in closed form

    The three outputs of the key derivation, written as slices of the
    digest; the theorems relate [kdfX25519AESGCM128] to them. *)
Definition kdfDigest `{Primitives} (dhParam sharedSecret : bytes) : bytes :=
  sha256_Sum256 (dhParam ++ sharedSecret).
Definition kdfKey `{Primitives} (dhParam sharedSecret : bytes) : bytes :=
  take 16 (kdfDigest dhParam sharedSecret).
Definition kdfClientNonce `{Primitives} (dhParam sharedSecret : bytes) : bytes :=
  take 8 (drop 16 (kdfDigest dhParam sharedSecret)) ++ [82; 81; 83; 84].
Definition kdfServerNonce `{Primitives} (dhParam sharedSecret : bytes) : bytes :=
  take 8 (drop 24 (kdfDigest dhParam sharedSecret)) ++ [82; 80; 76; 89].

(** Whether the client context holds a private key. *)
Definition hasPrivateKey (client : clientX25519AESGCM128) : bool :=
  match ClientPrivateKey client with
  | Some _ => true
  | None => false
  end.

(** The header [PackOutgoing] writes for a client context. *)
Definition requestHeaderOf (client : clientX25519AESGCM128) : header :=
  {| Flags := if hasPrivateKey client then Z.lor 0 flagsClientAuth else 0;
     CipherSuite := CipherSuiteX25519AESGCM |}.

(** The header the server's reply closure writes. *)
Definition replyHeaderOf (hasClientAuth : bool) : header :=
  {| Flags := if hasClientAuth then Z.lor flagsReply flagsClientAuth else flagsReply;
     CipherSuite := CipherSuiteX25519AESGCM |}.

(** A header as Go's types hold it: 16 bits of flags, 8 bits of suite. *)
Definition headerFits (h : header) : Prop :=
  0 <= Flags h < 65536 /\ 0 <= CipherSuite h < 256.

(** ** The parts of what [PackOutgoing] and [UnpackIncoming] return *)
Definition sealedPacket (r : result (bytes * clientReplyState)) : bytes :=
  match r with
  | Ok (packet, _) => packet
  | _ => []
  end.

Definition sealedState (r : result (bytes * clientReplyState)) : clientReplyState :=
  match r with
  | Ok (_, st) => st
  | _ => {| c_aesgcm := None; c_dhParam := []; c_serverNonce := [] |}
  end.

Definition packetOf
    (r : result (bytes * clientReplyState) * clientX25519AESGCM128 * Reader) : bytes :=
  sealedPacket (fst (fst r)).

Definition closureOf
    (r : result (bytes * clientReplyState) * clientX25519AESGCM128 * Reader)
  : clientReplyState := sealedState (fst (fst r)).

Definition replyStateOf (r : result (bytes * serverReplyState * option bytes))
  : serverReplyState :=
  match r with
  | Ok (_, rs, _) => rs
  | _ => {| s_aesgcm := None; s_hasClientAuth := false;
            s_dhParam := []; s_serverNonce := [] |}
  end.

Definition clientOf
    (r : result (bytes * clientReplyState) * clientX25519AESGCM128 * Reader)
  : clientX25519AESGCM128 := snd (fst r).

Definition readerOf
    (r : result (bytes * clientReplyState) * clientX25519AESGCM128 * Reader)
  : Reader := snd r.

(** The reply packet a server sends for a request, when both the
    unpacking and the reply closure succeed. *)
Definition replyTo `{Primitives} (server : serverX22519AESGCM128) (packet payload : bytes)
  : bytes :=
  match UnpackIncoming server packet with
  | Ok (_, rs, _) =>
      match serverReplyHandler rs payload with
      | (Ok reply, _) => reply
      | _ => []
      end
  | _ => []
  end.

(** ** A small suite that meets the laws

    Exclusive-or stands for the scalar multiplication, a checksum for the
    hash, and a masked copy with a 16-byte checksum tag for the AEAD. *)
Module Toy.

Definition xorBytes (a b : bytes) : bytes := zip_with Z.lxor a b.

Definition X25519 (scalar point : bytes) : option bytes :=
  if bool_decide (length scalar = 32 /\ length point = 32)%nat
  then Some (xorBytes scalar point) else None.

Definition Basepoint : bytes := 9 :: replicate 31 0.

Definition checksum (m : bytes) : Z :=
  foldl (fun acc b => (acc * 131 + b + 1) mod 65521) 7 m.

Definition digest (n : nat) (m : bytes) : bytes :=
  (fun i => (checksum m * (Z.of_nat i + 1) + Z.of_nat i) mod 256) <$> seq 0 n.

Definition sha256_Sum256 (m : bytes) : bytes := digest 32 m.

Definition mask (key nonce : bytes) : Z := checksum (key ++ nonce) mod 256.

Definition tag (key nonce plaintext ad : bytes) : bytes :=
  digest 16 (key ++ nonce ++ ad ++ plaintext).

Definition gcm_seal (key nonce plaintext ad : bytes) : bytes :=
  (Z.lxor (mask key nonce) <$> plaintext) ++ tag key nonce plaintext ad.

Definition gcm_open (key nonce ciphertext ad : bytes) : option bytes :=
  if bool_decide (16 <= length ciphertext)%nat then
    let body := take (length ciphertext - 16) ciphertext in
    let plaintext := Z.lxor (mask key nonce) <$> body in
    if bool_decide (drop (length ciphertext - 16) ciphertext = tag key nonce plaintext ad)
    then Some plaintext else None
  else None.

Definition prims : Primitives :=
  Build_Primitives X25519 Basepoint sha256_Sum256 gcm_seal gcm_open.

(** Concrete keys and byte sources for the examples. *)
Definition serverPrivate : bytes := replicate 32 17.
Definition serverPublic : bytes := xorBytes serverPrivate Basepoint.
Definition clientPrivate : bytes := replicate 32 34.
Definition server : serverX22519AESGCM128 := newServer serverPrivate.
Definition anonymous : clientX25519AESGCM128 := newClient serverPublic None.
Definition authenticated : clientX25519AESGCM128 :=
  newClient serverPublic (Some clientPrivate).
Definition source1 : Reader := Z.of_nat <$> seq 1 64.
Definition source2 : Reader := Z.of_nat <$> seq 101 64.
Definition hi : bytes := stringBytes "hi".
Definition ok : bytes := stringBytes "ok".

(** An anonymous and an authenticated request, from two sources. *)
Definition run1 := @PackOutgoing prims anonymous hi source1.
Definition run2 := @PackOutgoing prims authenticated hi source2.
Definition run3 := @PackOutgoing prims anonymous hi source2.

(** A request header with a reserved flag bit set. *)
Definition reservedHeader : header :=
  {| Flags := 4; CipherSuite := CipherSuiteX25519AESGCM |}.

(** A request header claiming client authentication. *)
Definition authHeader : header :=
  {| Flags := flagsClientAuth; CipherSuite := CipherSuiteX25519AESGCM |}.

(** The session secret another party picked. *)
Definition otherSecret : bytes := replicate 32 85.

(** A REPLY header with an unknown suite, and nothing else. *)
Definition replyOfSuite2 : bytes := [0; 1; 2; 0].

(** A request header followed by a key agreement value and a
    four-byte ciphertext section: 40 bytes. *)
Definition short40 : bytes := [0; 0; 1; 0] ++ replicate 32 7 ++ [1; 2; 3; 4].

(** A request header and nothing else. *)
Definition headerOnly : bytes := [0; 0; 1; 0].

(** Requests sealed by another party over those headers. *)
Definition reservedRequest : result (bytes * clientReplyState) :=
  @craftRequest prims reservedHeader otherSecret serverPublic hi.
Definition shortAuthRequest : result (bytes * clientReplyState) :=
  @craftRequest prims authHeader otherSecret serverPublic hi.

End Toy.

(** ** Definitions for the properties of the whole file *)

(** A byte as Go holds it. *)
Definition isByte (b : Z) : Prop := 0 <= b < 256.

(** The number a little-endian byte string stands for (the comment of
    line 41). *)
Fixpoint littleEndian (s : bytes) : Z :=
  match s with
  | [] => 0
  | b :: rest => b + 256 * littleEndian rest
  end.

(** The reader [generateX22519Private] draws from: the caller's, and
    [rand.Reader] when the caller passes [nil] (lines 30-32). *)
Definition sourceUsed (random : option Reader) (rand_Reader : Reader) : Reader :=
  default rand_Reader random.

(** The locals of a request that was opened, and nothing otherwise. *)
Definition openedOf (r : result openedRequest) : openedRequest :=
  match r with
  | Ok o => o
  | _ => {| o_hasClientAuth := false; o_dhParam := [];
            o_aesgcm := {| gcmKey := [] |}; o_serverNonce := []; o_payload := [] |}
  end.

(** The keys of a pair that was generated, and nothing otherwise. *)
Definition pairOf (r : result (bytes * bytes) * option Reader * Reader) : bytes * bytes :=
  match fst (fst r) with
  | Ok keys => keys
  | _ => ([], [])
  end.

(** Further values on the small suite. *)
Module Scenario.

(** A request that claims the all-zero client key with an all-zero
    scalar, and one that claims the base point with the sender's own
    secret. *)
Definition unprovedRequest : result (bytes * clientReplyState) :=
  @craftRequest Toy.prims Toy.authHeader Toy.otherSecret Toy.serverPublic
    (replicate 64 0 ++ Toy.hi).
Definition basePointRequest : result (bytes * clientReplyState) :=
  @craftRequest Toy.prims Toy.authHeader Toy.otherSecret Toy.serverPublic
    (Toy.Basepoint ++ Toy.otherSecret ++ Toy.hi).

(** A key pair drawn from the first source. *)
Definition pairRun := @generateX22519Pair Toy.prims None Toy.source1.

(** What the server makes of the authenticated request, and its reply. *)
Definition unpacked2 := @UnpackIncoming Toy.prims Toy.server (packetOf Toy.run2).
Definition reply2 : bytes := @replyTo Toy.prims Toy.server (packetOf Toy.run2) Toy.ok.

End Scenario.

(** * Theorems *)

(** ** The small suite meets the laws *)

Lemma xorBytes_swap (a b p : bytes) :
  Toy.xorBytes b (Toy.xorBytes a p) = Toy.xorBytes a (Toy.xorBytes b p).
Proof.
  unfold Toy.xorBytes.
  revert a b; induction p as [|x p IH]; intros [|y a] [|z b]; simpl; try reflexivity.
  f_equal; [| apply IH].
  rewrite <- !Z.lxor_assoc, (Z.lxor_comm z y). reflexivity.
Qed.

Lemma xorBytes_length (a b : bytes) :
  length a = 32%nat -> length b = 32%nat -> length (Toy.xorBytes a b) = 32%nat.
Proof. intros Ha Hb. unfold Toy.xorBytes. rewrite length_zip_with. lia. Qed.

Lemma digest_length (n : nat) (m : bytes) : length (Toy.digest n m) = n.
Proof. unfold Toy.digest. rewrite length_fmap. apply length_seq. Qed.

Lemma mask_twice (k : Z) (p : bytes) : Z.lxor k <$> (Z.lxor k <$> p) = p.
Proof.
  induction p as [|x p IH]; csimpl; [reflexivity|].
  f_equal; [|exact IH].
  rewrite <- Z.lxor_assoc, Z.lxor_nilpotent, Z.lxor_0_l. reflexivity.
Qed.

Lemma Toy_laws : PrimitiveLaws Toy.prims.
Proof.
  split; cbn [X25519 Basepoint sha256_Sum256 gcm_seal gcm_open Toy.prims].
  - intros s p q. unfold Toy.X25519. case_bool_decide as Hl; [|discriminate].
    intros [= <-]. destruct Hl as [Hs Hp]. rewrite xorBytes_length by assumption. tauto.
  - intros a b p. unfold Toy.X25519.
    destruct (decide (length a = 32%nat)) as [Ha|Ha],
             (decide (length b = 32%nat)) as [Hb|Hb],
             (decide (length p = 32%nat)) as [Hp|Hp];
      repeat (case_bool_decide; cbn [mbind option_bind]); try reflexivity; try tauto;
      try (f_equal; apply xorBytes_swap);
      exfalso; rewrite ?xorBytes_length in * by assumption; tauto.
  - intros m. apply digest_length.
  - intros k n p ad. unfold Toy.gcm_open, Toy.gcm_seal.
    assert (Ht : length (Toy.tag k n p ad) = 16%nat) by apply digest_length.
    rewrite length_app, Ht, length_fmap.
    replace (length p + 16 - 16)%nat with (length (Z.lxor (Toy.mask k n) <$> p))
      by (rewrite length_fmap; lia).
    rewrite take_app_length, drop_app_length, mask_twice.
    rewrite bool_decide_true by lia. rewrite bool_decide_true by reflexivity.
    reflexivity.
  - intros k n c ad Hc. unfold Toy.gcm_open. rewrite bool_decide_false by lia.
    reflexivity.
Qed.

(** ** Slices and copies *)

Lemma slice_ok (lo hi : nat) (s : bytes) :
  (lo <= hi <= length s)%nat -> slice lo hi s = Ok (take (hi - lo) (drop lo s)).
Proof. intros H. unfold slice. rewrite bool_decide_true by exact H. reflexivity. Qed.

Lemma slice_panics (lo hi : nat) (s : bytes) :
  (length s < hi)%nat -> slice lo hi s = Panic.
Proof. intros H. unfold slice. rewrite bool_decide_false by lia. reflexivity. Qed.

Lemma sliceFrom_ok (lo : nat) (s : bytes) :
  (lo <= length s)%nat -> sliceFrom lo s = Ok (drop lo s).
Proof. intros H. unfold sliceFrom. rewrite bool_decide_true by exact H. reflexivity. Qed.

Lemma copy_exact (dst src : bytes) : length src = length dst -> copy dst src = src.
Proof.
  intros H. unfold copy. rewrite <- H, firstn_all, drop_ge, app_nil_r by lia.
  reflexivity.
Qed.

Lemma copyInto_exact (buf : bytes) (lo hi : nat) (src : bytes) :
  (lo <= hi <= length buf)%nat -> length src = (hi - lo)%nat ->
  copyInto buf lo hi src = take lo buf ++ src ++ drop hi buf.
Proof.
  intros Hb Hs. unfold copyInto. rewrite copy_exact; [reflexivity|].
  rewrite length_take, length_drop. lia.
Qed.

(** Lines 108-111 build [clientPublicKey || sessionSecret || data]. *)
Lemma extendedData_layout (pub secret data : bytes) :
  length pub = 32%nat -> length secret = 32%nat ->
  let extendedData := make (length data + 64) in
  let extendedData := copyInto extendedData 0 32 pub in
  let extendedData := copyInto extendedData 32 64 secret in
  copyInto extendedData 64 (length extendedData) data = pub ++ secret ++ data.
Proof.
  intros Hp Hs. cbv zeta. unfold make.
  rewrite (copyInto_exact _ 0 32) by (rewrite ?length_replicate; lia).
  rewrite take_0, drop_replicate. cbn [app].
  rewrite (copyInto_exact _ 32 64)
    by (rewrite ?length_app, ?length_replicate; lia).
  rewrite take_app_length' by lia.
  rewrite drop_app_ge, Hp, drop_replicate by lia.
  assert (Hl : length (pub ++ secret ++ replicate (length data + 64 - 32 - (64 - 32)) 0)
               = (length data + 64)%nat)
    by (rewrite !length_app, length_replicate; lia).
  rewrite copyInto_exact by (rewrite Hl; lia).
  rewrite Hl, drop_ge, app_nil_r by lia.
  rewrite app_assoc, take_app_length' by (rewrite length_app; lia).
  rewrite <- app_assoc. reflexivity.
Qed.

Lemma extended_split (pub secret data : bytes) :
  length pub = 32%nat -> length secret = 32%nat ->
  slice 0 32 (pub ++ secret ++ data) = Ok pub /\
  slice 32 64 (pub ++ secret ++ data) = Ok secret /\
  sliceFrom 64 (pub ++ secret ++ data) = Ok data.
Proof.
  intros Hp Hs. split; [|split].
  - rewrite slice_ok by (rewrite !length_app; lia).
    rewrite drop_0, take_app_length' by lia. reflexivity.
  - rewrite slice_ok by (rewrite !length_app; lia).
    rewrite drop_app_length', take_app_length' by lia. reflexivity.
  - rewrite sliceFrom_ok by (rewrite !length_app; lia).
    rewrite app_assoc, drop_app_length' by (rewrite length_app; lia). reflexivity.
Qed.

(** ** The header on the wire *)

Lemma binary_Write_bytes (h : header) :
  binary_Write [] h = [(Flags h / 256) mod 256; Flags h mod 256; CipherSuite h mod 256; 0].
Proof. reflexivity. Qed.

Lemma binary_Read_Write (h : header) (rest : bytes) :
  headerFits h -> binary_Read (binary_Write [] h ++ rest) = Ok h.
Proof.
  intros [HF HC]. destruct h as [F C]; cbn [Flags CipherSuite] in *.
  rewrite binary_Write_bytes. cbn [app binary_Read Flags CipherSuite].
  f_equal. f_equal.
  - rewrite (Z.mod_small (F / 256)) by (split; [apply Z.div_pos|apply Z.div_lt_upper_bound]; lia).
    pose proof (Z.div_mod F 256). lia.
  - apply Z.mod_small; lia.
Qed.

Lemma packet_slices (h : header) (dhParam ct : bytes) :
  length dhParam = 32%nat ->
  slice 4 36 (binary_Write [] h ++ dhParam ++ ct) = Ok dhParam /\
  sliceFrom 36 (binary_Write [] h ++ dhParam ++ ct) = Ok ct /\
  slice 0 4 (binary_Write [] h ++ dhParam ++ ct) = Ok (binary_Write [] h) /\
  slice 0 4 (binary_Write [] h ++ dhParam) = Ok (binary_Write [] h).
Proof.
  intros Hd.
  assert (Hl : forall t : bytes,
             length (binary_Write [] h ++ dhParam ++ t) = (36 + length t)%nat).
  { intros t. rewrite !length_app, Hd. reflexivity. }
  split; [|split; [|split]].
  - rewrite slice_ok by (rewrite Hl; lia). rewrite binary_Write_bytes.
    cbn [app drop Nat.sub]. rewrite drop_0, take_app_length' by lia. reflexivity.
  - rewrite sliceFrom_ok by (rewrite Hl; lia). rewrite binary_Write_bytes.
    change 36%nat with (4 + 32)%nat. rewrite <- drop_drop. cbn [app drop].
    rewrite drop_0, drop_app_length' by lia. reflexivity.
  - rewrite slice_ok by (rewrite Hl; lia). reflexivity.
  - rewrite slice_ok by (rewrite length_app, Hd; cbn [length]; lia). reflexivity.
Qed.

(** ** Drawing the session secret *)

Lemma clamp_length (priv : bytes) : length (clamp priv) = length priv.
Proof. unfold clamp. cbv zeta. rewrite !length_alter. reflexivity. Qed.

Lemma generateX22519Private_length (random : option Reader) (rand_Reader : Reader)
    (priv : bytes) (random' : option Reader) (rand_Reader' : Reader) :
  generateX22519Private random rand_Reader = (Ok priv, random', rand_Reader') ->
  length priv = 32%nat.
Proof.
  unfold generateX22519Private, io_ReadFull.
  destruct random as [rd|].
  - case_bool_decide as Hn; [|destruct rd; discriminate].
    cbn [mbind result_bind mret result_ret]. intros [= <- _ _].
    rewrite clamp_length, length_take. lia.
  - case_bool_decide as Hn; [|destruct rand_Reader; discriminate].
    cbn [mbind result_bind mret result_ret]. intros [= <- _ _].
    rewrite clamp_length, length_take. lia.
Qed.

(** The RFC 7748 clamping of lines 44-46: the low three bits of byte 0 and
    the top bit of byte 31 are clear, bit 6 of byte 31 is set. *)
Lemma clamp_clamped (priv : bytes) (b0 b31 : Z) :
  clamp priv !! 0%nat = Some b0 -> clamp priv !! 31%nat = Some b31 ->
  Z.land b0 7 = 0 /\ Z.land b31 128 = 0 /\ Z.land b31 64 <> 0.
Proof.
  unfold clamp. cbv zeta.
  rewrite !list_lookup_alter. repeat case_decide; try lia.
  destruct (priv !! 0%nat) as [x|]; [|discriminate]. intros [= <-].
  destruct (priv !! 31%nat) as [y|]; [|discriminate]. intros [= <-].
  split; [|split].
  - rewrite <- Z.land_assoc. apply Z.land_0_r.
  - rewrite Z.land_lor_distr_l, <- Z.land_assoc. cbn [Z.land Pos.land].
    rewrite Z.land_0_r. reflexivity.
  - rewrite Z.land_lor_distr_l. intros Hz. apply Z.lor_eq_0_iff in Hz.
    destruct Hz as [_ Hz]. discriminate Hz.
Qed.

Lemma generateX22519Pair_keypair `{Primitives} (random random' : option Reader)
    (rand_Reader rand_Reader' : Reader) (priv pub : bytes) :
  generateX22519Pair random rand_Reader = (Ok (priv, pub), random', rand_Reader') ->
  X25519 priv Basepoint = Some pub /\ length priv = 32%nat.
Proof.
  unfold generateX22519Pair.
  destruct (generateX22519Private random rand_Reader) as [[r o] rd] eqn:Hgen.
  destruct r as [secret|e|]; cbn [mbind result_bind]; [|discriminate..].
  destruct (X25519 secret Basepoint) as [q|] eqn:Hq;
    cbn [ofX25519 mbind result_bind mret result_ret]; [|discriminate].
  intros [= <- <- _ _]. split; [exact Hq|].
  exact (generateX22519Private_length _ _ _ _ _ Hgen).
Qed.

(** The public key is computed once and then served from the cache. *)
Lemma GetServerPublicKey_cached `{Primitives} (server server' : serverX22519AESGCM128)
    (key : bytes) :
  serverPublicKey server = None ->
  GetServerPublicKey server = (Ok key, server') ->
  X25519 (ServerPrivateKey server) Basepoint = Some key /\
  ServerPrivateKey server' = ServerPrivateKey server /\
  GetServerPublicKey server' = (Ok key, server').
Proof.
  intros Hnone. unfold GetServerPublicKey. rewrite Hnone.
  destruct (X25519 (ServerPrivateKey server) Basepoint) as [pub|] eqn:Hpub;
    cbn [ofX25519]; [|discriminate].
  intros [= <- <-]. cbn [serverPublicKey ServerPrivateKey]. auto.
Qed.

(** ** The key schedule and the sealed packet *)

Section WithLaws.
Context {P : Primitives} {L : PrimitiveLaws P}.

Lemma kdfDigest_length (dhParam sharedSecret : bytes) :
  length (kdfDigest dhParam sharedSecret) = 32%nat.
Proof. apply sha256_length. Qed.

Lemma kdfKey_length (dhParam sharedSecret : bytes) :
  length (kdfKey dhParam sharedSecret) = 16%nat.
Proof. unfold kdfKey. rewrite length_take, kdfDigest_length. reflexivity. Qed.

Lemma kdfClientNonce_length (dhParam sharedSecret : bytes) :
  length (kdfClientNonce dhParam sharedSecret) = 12%nat.
Proof.
  unfold kdfClientNonce.
  rewrite length_app, length_take, length_drop, kdfDigest_length. reflexivity.
Qed.

Lemma kdfServerNonce_length (dhParam sharedSecret : bytes) :
  length (kdfServerNonce dhParam sharedSecret) = 12%nat.
Proof.
  unfold kdfServerNonce.
  rewrite length_app, length_take, length_drop, kdfDigest_length. reflexivity.
Qed.

Lemma kdf_closed_form (dhParam sharedSecret : bytes) :
  kdfX25519AESGCM128 dhParam sharedSecret
  = Ok (kdfKey dhParam sharedSecret, kdfClientNonce dhParam sharedSecret,
        kdfServerNonce dhParam sharedSecret).
Proof.
  unfold kdfX25519AESGCM128, sha256_New, hash_Write, hash_Sum. cbv zeta.
  cbn [app]. fold (kdfDigest dhParam sharedSecret).
  pose proof (kdfDigest_length dhParam sharedSecret) as Hl.
  rewrite !slice_ok by (rewrite Hl; lia).
  cbn [mbind result_bind mret result_ret].
  rewrite !copy_exact
    by (unfold make; rewrite length_take, length_drop, length_replicate, Hl; reflexivity).
  reflexivity.
Qed.

Lemma aes_NewCipher_kdfKey (dhParam sharedSecret : bytes) :
  aes_NewCipher (kdfKey dhParam sharedSecret) = Ok (kdfKey dhParam sharedSecret).
Proof.
  unfold aes_NewCipher. rewrite bool_decide_true; [reflexivity|].
  left. apply kdfKey_length.
Qed.

Lemma Seal_ok (g : AEAD) (nonce plaintext ad : bytes) :
  length nonce = 12%nat -> Seal g nonce plaintext ad = Ok (gcm_seal (gcmKey g) nonce plaintext ad).
Proof. intros H. unfold Seal. rewrite bool_decide_true by exact H. reflexivity. Qed.

Lemma Open_ok (g : AEAD) (nonce ct ad : bytes) :
  length nonce = 12%nat ->
  Open g nonce ct ad = match gcm_open (gcmKey g) nonce ct ad with
                       | Some p => Ok p
                       | None => Err cipher_errOpen
                       end.
Proof. intros H. unfold Open. rewrite bool_decide_true by exact H. reflexivity. Qed.

(** The request packet and the closure state, for any header, key
    agreement values and plaintext. *)
Lemma sealRequest_closed_form (h : header) (dhParam sharedSecret data : bytes) :
  sealRequest h dhParam sharedSecret data
  = Ok (binary_Write [] h ++ dhParam ++
          gcm_seal (kdfKey dhParam sharedSecret) (kdfClientNonce dhParam sharedSecret)
                   data (binary_Write [] h),
        {| c_aesgcm := Some {| gcmKey := kdfKey dhParam sharedSecret |};
           c_dhParam := dhParam;
           c_serverNonce := kdfServerNonce dhParam sharedSecret |}).
Proof.
  unfold sealRequest. rewrite kdf_closed_form.
  cbn [mbind result_bind]. rewrite aes_NewCipher_kdfKey.
  cbn [mbind result_bind cipher_NewGCM]. cbv zeta.
  rewrite slice_ok by (rewrite length_app; cbn [length binary_Write app]; lia).
  rewrite binary_Write_bytes at 1. cbn [app drop take Nat.sub mbind result_bind].
  rewrite Seal_ok by apply kdfClientNonce_length.
  cbn [mbind result_bind mret result_ret gcmKey].
  rewrite <- app_assoc, <- binary_Write_bytes. reflexivity.
Qed.

(** What the server makes of a packet laid out as header, key agreement
    value and ciphertext. *)
Lemma openRequest_layout (server : serverX22519AESGCM128) (h : header)
    (dhParam sharedSecret ct : bytes) :
  headerFits h ->
  Z.land (Flags h) flagsReply = 0 ->
  CipherSuite h = CipherSuiteX25519AESGCM ->
  length dhParam = 32%nat ->
  X25519 (ServerPrivateKey server) dhParam = Some sharedSecret ->
  openRequest server (binary_Write [] h ++ dhParam ++ ct)
  = match gcm_open (kdfKey dhParam sharedSecret) (kdfClientNonce dhParam sharedSecret)
                   ct (binary_Write [] h) with
    | Some payload =>
        Ok {| o_hasClientAuth := negb (Z.land (Flags h) flagsClientAuth =? 0);
              o_dhParam := dhParam;
              o_aesgcm := {| gcmKey := kdfKey dhParam sharedSecret |};
              o_serverNonce := kdfServerNonce dhParam sharedSecret;
              o_payload := payload |}
    | None => Err cipher_errOpen
    end.
Proof.
  intros Hfit Hreply Hsuite Hlen Hdh. unfold openRequest.
  rewrite binary_Read_Write by exact Hfit. cbn [mbind result_bind].
  rewrite Hreply, Hsuite. cbn [Z.eqb negb Pos.eqb CipherSuiteX25519AESGCM].
  destruct (packet_slices h dhParam ct Hlen) as (-> & -> & -> & _).
  cbn [mbind result_bind]. rewrite Hdh. cbn [ofX25519 mbind result_bind].
  rewrite kdf_closed_form. cbn [mbind result_bind].
  rewrite aes_NewCipher_kdfKey. cbn [mbind result_bind cipher_NewGCM].
  rewrite Open_ok by apply kdfClientNonce_length. cbn [gcmKey].
  destruct (gcm_open _ _ _ _); reflexivity.
Qed.

End WithLaws.

(** ** Key agreement *)

Section Agreement.
Context {P : Primitives} {L : PrimitiveLaws P}.

Lemma X25519_swap (a b p q1 q2 : bytes) :
  X25519 a p = Some q1 -> X25519 b p = Some q2 -> X25519 b q1 = X25519 a q2.
Proof.
  intros Ha Hb. pose proof (X25519_comm a b p) as H.
  rewrite Ha, Hb in H. exact H.
Qed.

Lemma X25519_nil_point (s : bytes) : X25519 s [] = None.
Proof.
  destruct (X25519 s []) as [q|] eqn:E; [|reflexivity].
  apply X25519_length in E. destruct E as (_ & E & _). discriminate.
Qed.

(** ** What a successful [packWithSecret] did *)

Lemma packWithSecret_anonymous (client : clientX25519AESGCM128) (data secret : bytes) :
  ClientPrivateKey client = None ->
  packWithSecret client data secret
  = (dhParam ← ofX25519 (X25519 secret Basepoint);
     sharedSecret ← ofX25519 (X25519 secret (ServerPublicKey client));
     sealRequest (requestHeaderOf client) dhParam sharedSecret data,
     client).
Proof.
  intros H. unfold packWithSecret, requestHeaderOf, hasPrivateKey. rewrite H. reflexivity.
Qed.

Lemma fillClientKeys_inv (client client' : clientX25519AESGCM128) (priv : bytes) :
  ClientPrivateKey client = Some priv ->
  clientKeysConsistent client ->
  fillClientKeys client priv = (Ok (), client') ->
  ServerPublicKey client' = ServerPublicKey client /\
  ClientPrivateKey client' = Some priv /\
  (exists pub, clientPublicKey client' = Some pub /\ X25519 priv Basepoint = Some pub) /\
  clientServerPublicKey client' = X25519 priv (ServerPublicKey client).
Proof.
  intros Hpriv Hcons. unfold clientKeysConsistent in Hcons. rewrite Hpriv in Hcons.
  unfold fillClientKeys.
  destruct (clientPublicKey client) as [pub|] eqn:Hpub.
  - intros [= <-]. destruct Hcons as [Hn | [Hp Hs]]; [discriminate|].
    repeat split; try assumption. exists pub. split; [assumption | congruence].
  - destruct (X25519 priv Basepoint) as [pub|] eqn:Hb; [|discriminate].
    cbn [ServerPublicKey ClientPrivateKey clientPublicKey clientServerPublicKey].
    destruct (X25519 priv (ServerPublicKey client)) as [shared|] eqn:Hs; [|discriminate].
    intros [= <-].
    cbn [ServerPublicKey ClientPrivateKey clientPublicKey clientServerPublicKey].
    repeat split; try assumption. exists pub. split; reflexivity.
Qed.

Lemma packWithSecret_authenticated (client client' : clientX25519AESGCM128)
    (priv data secret packet : bytes) (st : clientReplyState) :
  ClientPrivateKey client = Some priv ->
  clientKeysConsistent client ->
  length secret = 32%nat ->
  packWithSecret client data secret = (Ok (packet, st), client') ->
  exists pub shared dhParam sharedSecret,
    X25519 priv Basepoint = Some pub /\
    X25519 priv (ServerPublicKey client) = Some shared /\
    X25519 secret pub = Some dhParam /\
    X25519 secret shared = Some sharedSecret /\
    clientPublicKey client' = Some pub /\
    sealRequest (requestHeaderOf client) dhParam sharedSecret (pub ++ secret ++ data)
    = Ok (packet, st).
Proof.
  intros Hpriv Hcons Hsec. unfold packWithSecret, requestHeaderOf, hasPrivateKey.
  rewrite Hpriv. cbv zeta.
  destruct (fillClientKeys client priv) as [filled c1] eqn:Hfill.
  destruct filled as [[]|e|]; cbn [mbind result_bind]; try discriminate.
  destruct (fillClientKeys_inv _ _ _ Hpriv Hcons Hfill)
    as (Hspk & _ & (pub & Hpub & Hb) & Hshared).
  rewrite Hpub, Hshared. unfold sliceBytes. cbn [from_option id Flags CipherSuite].
  destruct (X25519 secret pub) as [dhParam|] eqn:Hdh;
    cbn [ofX25519 mbind result_bind]; [|discriminate].
  destruct (X25519 priv (ServerPublicKey client)) as [shared|] eqn:Hs.
  2:{ cbn [from_option id]. rewrite X25519_nil_point. cbn [ofX25519 mbind result_bind].
      discriminate. }
  cbn [from_option id].
  destruct (X25519 secret shared) as [sharedSecret|] eqn:Hss;
    cbn [ofX25519 mbind result_bind]; [|discriminate].
  pose proof (X25519_length _ _ _ Hb) as (_ & _ & Hpl).
  pose proof (extendedData_layout pub secret data Hpl Hsec) as Hext. cbv zeta in Hext.
  rewrite Hext. intros [= Hseal <-].
  exists pub, shared, dhParam, sharedSecret. repeat split; assumption.
Qed.

(** [PackOutgoing] keeps the cached keys consistent, whatever it returns. *)
Lemma packWithSecret_keeps_consistent (client client' : clientX25519AESGCM128)
    (data secret : bytes) (r : result (bytes * clientReplyState)) :
  clientKeysConsistent client ->
  packWithSecret client data secret = (r, client') ->
  clientKeysConsistent client' /\
  ClientPrivateKey client' = ClientPrivateKey client /\
  ServerPublicKey client' = ServerPublicKey client.
Proof.
  intros Hcons. unfold packWithSecret.
  destruct (ClientPrivateKey client) as [priv|] eqn:Hpriv.
  - cbv zeta. destruct (fillClientKeys client priv) as [filled c1] eqn:Hfill.
    intros [= _ <-]. revert Hfill. unfold fillClientKeys.
    unfold clientKeysConsistent in *. rewrite Hpriv in Hcons.
    destruct (clientPublicKey client) as [pub|] eqn:Hpub.
    + intros [= _ <-]. rewrite Hpriv, Hpub. auto.
    + destruct (X25519 priv Basepoint) as [pub|] eqn:Hb.
      * cbn [ServerPublicKey ClientPrivateKey clientPublicKey clientServerPublicKey].
        destruct (X25519 priv (ServerPublicKey client)) eqn:Hs; intros [= _ <-];
          cbn [ServerPublicKey ClientPrivateKey clientPublicKey clientServerPublicKey];
          rewrite Hpriv; auto.
      * intros [= _ <-].
        cbn [ServerPublicKey ClientPrivateKey clientPublicKey clientServerPublicKey].
        rewrite Hpriv. auto.
  - intros [= _ <-]. auto.
Qed.

End Agreement.

(** ** A request through the server, and its reply back *)

Section RoundTrip.
Context {P : Primitives} {L : PrimitiveLaws P}.

Lemma Ok_pair_inj {A B : Type} (a a' : A) (b b' : B) :
  Ok (a, b) = Ok (a', b') -> a = a' /\ b = b'.
Proof. intros [= -> ->]. split; reflexivity. Qed.

Lemma requestHeaderOf_fits (client : clientX25519AESGCM128) :
  headerFits (requestHeaderOf client) /\
  Z.land (Flags (requestHeaderOf client)) flagsReply = 0 /\
  CipherSuite (requestHeaderOf client) = CipherSuiteX25519AESGCM /\
  negb (Z.land (Flags (requestHeaderOf client)) flagsClientAuth =? 0) = hasPrivateKey client.
Proof.
  unfold requestHeaderOf, headerFits.
  destruct (hasPrivateKey client); repeat split; try reflexivity; cbv; congruence.
Qed.

(** What a successful [PackOutgoing] did: the secret it drew, the two
    key agreement values, and the plaintext it sealed. *)
Lemma PackOutgoing_inv (client client' : clientX25519AESGCM128) (data packet : bytes)
    (rand_Reader rand_Reader' : Reader) (st : clientReplyState) :
  clientKeysConsistent client ->
  PackOutgoing client data rand_Reader = (Ok (packet, st), client', rand_Reader') ->
  exists secret dhParam sharedSecret plaintext,
    length dhParam = 32%nat /\
    sealRequest (requestHeaderOf client) dhParam sharedSecret plaintext = Ok (packet, st) /\
    (clientPublicKey client' = None <-> hasPrivateKey client = false) /\
    match ClientPrivateKey client with
    | None =>
        X25519 secret Basepoint = Some dhParam /\
        X25519 secret (ServerPublicKey client) = Some sharedSecret /\
        plaintext = data
    | Some priv =>
        exists pub shared,
          X25519 priv Basepoint = Some pub /\
          X25519 priv (ServerPublicKey client) = Some shared /\
          X25519 secret pub = Some dhParam /\
          X25519 secret shared = Some sharedSecret /\
          length secret = 32%nat /\
          plaintext = pub ++ secret ++ data
    end.
Proof.
  intros Hcons. unfold PackOutgoing.
  destruct (generateX22519Private None rand_Reader) as [[r o] rd] eqn:Hgen.
  destruct r as [secret|e|]; [|discriminate..].
  pose proof (generateX22519Private_length _ _ _ _ _ Hgen) as Hsec.
  destruct (packWithSecret client data secret) as [packed c1] eqn:Hpack.
  intros [= -> -> ->].
  destruct (ClientPrivateKey client) as [priv|] eqn:Hpriv.
  - destruct (packWithSecret_authenticated _ _ _ _ _ _ _ Hpriv Hcons Hsec Hpack)
      as (pub & shared & dhParam & sharedSecret & Hb & Hs & Hdh & Hss & Hpub' & Hseal).
    pose proof (X25519_length _ _ _ Hdh) as (_ & _ & Hdl).
    exists secret, dhParam, sharedSecret, (pub ++ secret ++ data).
    split; [exact Hdl|]. split; [exact Hseal|]. split.
    { unfold hasPrivateKey. rewrite Hpriv, Hpub'. split; discriminate. }
    exists pub, shared. repeat split; assumption.
  - rewrite packWithSecret_anonymous in Hpack by exact Hpriv.
    destruct (X25519 secret Basepoint) as [dhParam|] eqn:Hdh; [|discriminate].
    destruct (X25519 secret (ServerPublicKey client)) as [sharedSecret|] eqn:Hss;
      [|discriminate].
    cbn [ofX25519 mbind result_bind] in Hpack.
    apply pair_equal_spec in Hpack. destruct Hpack as [Hpack <-].
    pose proof (X25519_length _ _ _ Hdh) as (_ & _ & Hdl).
    exists secret, dhParam, sharedSecret, data.
    split; [exact Hdl|]. split; [exact Hpack|]. split.
    { unfold clientKeysConsistent in Hcons. rewrite Hpriv in Hcons.
      unfold hasPrivateKey. rewrite Hpriv. tauto. }
    repeat split; first [assumption | reflexivity].
Qed.

(** The layout of the packet and the closure state of a successful
    [PackOutgoing]. *)
Lemma PackOutgoing_layout (client client' : clientX25519AESGCM128) (data packet : bytes)
    (rand_Reader rand_Reader' : Reader) (st : clientReplyState) :
  clientKeysConsistent client ->
  PackOutgoing client data rand_Reader = (Ok (packet, st), client', rand_Reader') ->
  exists dhParam g nonce ct,
    length dhParam = 32%nat /\ length nonce = 12%nat /\
    packet = binary_Write [] (requestHeaderOf client) ++ dhParam ++ ct /\
    st = {| c_aesgcm := Some g; c_dhParam := dhParam; c_serverNonce := nonce |} /\
    (clientPublicKey client' = None <-> hasPrivateKey client = false).
Proof.
  intros Hcons Hpack.
  destruct (PackOutgoing_inv _ _ _ _ _ _ _ Hcons Hpack)
    as (secret & dhParam & sharedSecret & plaintext & Hdl & Hseal & Hmode & _).
  rewrite sealRequest_closed_form in Hseal.
  apply Ok_pair_inj in Hseal. destruct Hseal as [<- <-].
  eexists dhParam, _, _, _. split; [exact Hdl|].
  split; [apply kdfServerNonce_length|]. split; [reflexivity|].
  split; [reflexivity|exact Hmode].
Qed.

(** The packet of a successful [PackOutgoing], the state of its reply
    closure, and what the server holding the matching private key makes
    of the packet. *)
Lemma pack_then_unpack (server : serverX22519AESGCM128)
    (client client' : clientX25519AESGCM128) (data packet : bytes)
    (rand_Reader rand_Reader' : Reader) (st : clientReplyState) :
  X25519 (ServerPrivateKey server) Basepoint = Some (ServerPublicKey client) ->
  clientKeysConsistent client ->
  PackOutgoing client data rand_Reader = (Ok (packet, st), client', rand_Reader') ->
  exists dhParam sharedSecret,
    length dhParam = 32%nat /\
    st = {| c_aesgcm := Some {| gcmKey := kdfKey dhParam sharedSecret |};
            c_dhParam := dhParam;
            c_serverNonce := kdfServerNonce dhParam sharedSecret |} /\
    (clientPublicKey client' = None <-> hasPrivateKey client = false) /\
    UnpackIncoming server packet
    = Ok (data,
          {| s_aesgcm := Some {| gcmKey := kdfKey dhParam sharedSecret |};
             s_hasClientAuth := hasPrivateKey client;
             s_dhParam := dhParam;
             s_serverNonce := kdfServerNonce dhParam sharedSecret |},
          ClientPrivateKey client ≫= (fun priv => X25519 priv Basepoint)).
Proof.
  intros Hkey Hcons Hpack.
  destruct (PackOutgoing_inv _ _ _ _ _ _ _ Hcons Hpack)
    as (secret & dhParam & sharedSecret & plaintext & Hdl & Hseal & Hmode & Hkeys).
  rewrite sealRequest_closed_form in Hseal.
  apply Ok_pair_inj in Hseal. destruct Hseal as [<- <-].
  destruct (requestHeaderOf_fits client) as (Hfit & Hreply & Hsuite & Hauth).
  exists dhParam, sharedSecret. split; [exact Hdl|]. split; [reflexivity|].
  split; [exact Hmode|]. unfold UnpackIncoming.
  destruct (ClientPrivateKey client) as [priv|] eqn:Hpriv.
  - (* client authentication *)
    destruct Hkeys as (pub & shared & Hb & Hs & Hdh & Hss & Hsec & ->).
    pose proof (X25519_length _ _ _ Hb) as (_ & _ & Hpl).
    assert (Hserver : X25519 (ServerPrivateKey server) dhParam = Some sharedSecret).
    { destruct (X25519 (ServerPrivateKey server) pub) as [q|] eqn:Hq.
      - rewrite (X25519_swap _ _ _ _ _ Hdh Hq).
        rewrite (X25519_swap _ _ _ _ _ Hb Hkey) in Hq. congruence.
      - pose proof (X25519_swap _ _ _ _ _ Hb Hkey). congruence. }
    rewrite (openRequest_layout server _ dhParam sharedSecret) by assumption.
    rewrite gcm_open_seal, Hauth. cbn [mbind result_bind].
    unfold checkClientAuth, hasPrivateKey. rewrite Hpriv.
    cbn [o_hasClientAuth o_payload o_dhParam o_aesgcm o_serverNonce].
    destruct (extended_split pub secret data Hpl Hsec) as (-> & -> & ->).
    cbn [mbind result_bind]. rewrite Hdh. cbn [ofX25519 mbind result_bind].
    unfold bytes_Equal. rewrite bool_decide_true by reflexivity.
    cbn [negb mbind result_bind mret result_ret option_bind]. rewrite Hb. reflexivity.
  - (* anonymous *)
    destruct Hkeys as (Hdh & Hss & ->).
    assert (Hserver : X25519 (ServerPrivateKey server) dhParam = Some sharedSecret).
    { rewrite (X25519_swap _ _ _ _ _ Hdh Hkey). exact Hss. }
    rewrite (openRequest_layout server _ dhParam sharedSecret) by assumption.
    rewrite gcm_open_seal, Hauth. cbn [mbind result_bind].
    unfold checkClientAuth, hasPrivateKey. rewrite Hpriv. reflexivity.
Qed.

(** What the server learned from a packet it opened. *)
Lemma openRequest_inv (server : serverX22519AESGCM128) (packetBytes : bytes)
    (o : openedRequest) :
  openRequest server packetBytes = Ok o ->
  exists h sharedSecret ct ad,
    binary_Read packetBytes = Ok h /\
    Z.land (Flags h) flagsReply = 0 /\
    CipherSuite h = CipherSuiteX25519AESGCM /\
    o_hasClientAuth o = negb (Z.land (Flags h) flagsClientAuth =? 0) /\
    slice 4 36 packetBytes = Ok (o_dhParam o) /\
    X25519 (ServerPrivateKey server) (o_dhParam o) = Some sharedSecret /\
    o_aesgcm o = {| gcmKey := kdfKey (o_dhParam o) sharedSecret |} /\
    o_serverNonce o = kdfServerNonce (o_dhParam o) sharedSecret /\
    sliceFrom 36 packetBytes = Ok ct /\ slice 0 4 packetBytes = Ok ad /\
    gcm_open (kdfKey (o_dhParam o) sharedSecret) (kdfClientNonce (o_dhParam o) sharedSecret)
             ct ad = Some (o_payload o).
Proof.
  unfold openRequest.
  destruct (binary_Read packetBytes) as [h|e|]; cbn [mbind result_bind]; [|discriminate..].
  destruct (Z.land (Flags h) flagsReply =? 0) eqn:Hreply; cbn [negb]; [|discriminate].
  destruct (CipherSuite h =? CipherSuiteX25519AESGCM) eqn:Hsuite; cbn [negb]; [|discriminate].
  destruct (slice 4 36 packetBytes) as [dhParam|e|]; cbn [mbind result_bind]; [|discriminate..].
  destruct (X25519 (ServerPrivateKey server) dhParam) as [sharedSecret|] eqn:Hdh;
    cbn [ofX25519 mbind result_bind]; [|discriminate].
  rewrite kdf_closed_form. cbn [mbind result_bind].
  rewrite aes_NewCipher_kdfKey. cbn [mbind result_bind cipher_NewGCM].
  destruct (sliceFrom 36 packetBytes) as [ct|e|]; cbn [mbind result_bind]; [|discriminate..].
  destruct (slice 0 4 packetBytes) as [ad|e|]; cbn [mbind result_bind]; [|discriminate..].
  rewrite Open_ok by apply kdfClientNonce_length. cbn [gcmKey].
  destruct (gcm_open _ _ ct ad) as [payload|] eqn:Hopen; cbn [mbind result_bind];
    [|discriminate].
  intros [= <-]. cbn [o_hasClientAuth o_dhParam o_aesgcm o_serverNonce o_payload].
  exists h, sharedSecret, ct, ad.
  apply Z.eqb_eq in Hreply, Hsuite. repeat split; try assumption; reflexivity.
Qed.

(** The reply closure handed out by [UnpackIncoming] is fresh, bound to
    bytes 4..36 of the request, and carries the request's mode. *)
Lemma UnpackIncoming_state (server : serverX22519AESGCM128) (packetBytes data : bytes)
    (rs : serverReplyState) (key : option bytes) :
  UnpackIncoming server packetBytes = Ok (data, rs, key) ->
  exists h g,
    binary_Read packetBytes = Ok h /\
    s_aesgcm rs = Some g /\
    s_hasClientAuth rs = negb (Z.land (Flags h) flagsClientAuth =? 0) /\
    slice 4 36 packetBytes = Ok (s_dhParam rs) /\
    length (s_serverNonce rs) = 12%nat.
Proof.
  unfold UnpackIncoming.
  destruct (openRequest server packetBytes) as [o|e|] eqn:Ho; cbn [mbind result_bind];
    [|discriminate..].
  destruct (checkClientAuth o) as [[d k]|e|]; cbn [mbind result_bind mret result_ret];
    [|discriminate..].
  intros [= <- <- <-]. cbn [s_aesgcm s_hasClientAuth s_dhParam s_serverNonce].
  destruct (openRequest_inv _ _ _ Ho)
    as (h & sharedSecret & ct & ad & Hh & _ & _ & Hauth & Hdh & _ & _ & Hn & _).
  exists h, (o_aesgcm o). repeat split; try assumption.
  rewrite Hn. apply kdfServerNonce_length.
Qed.

(** The server's reply closure on a fresh state. *)
Lemma serverReplyHandler_fresh (g : AEAD) (auth : bool) (dhParam nonce data : bytes) :
  length nonce = 12%nat ->
  serverReplyHandler {| s_aesgcm := Some g; s_hasClientAuth := auth;
                        s_dhParam := dhParam; s_serverNonce := nonce |} data
  = (Ok (binary_Write [] (replyHeaderOf auth) ++ dhParam ++
           gcm_seal (gcmKey g) nonce data (binary_Write [] (replyHeaderOf auth))),
     {| s_aesgcm := None; s_hasClientAuth := auth;
        s_dhParam := dhParam; s_serverNonce := nonce |}).
Proof.
  intros Hn. unfold serverReplyHandler.
  cbn [s_aesgcm s_hasClientAuth s_dhParam s_serverNonce Flags CipherSuite]. cbv zeta.
  assert (Hh : (if auth
                then {| Flags := Z.lor flagsReply flagsClientAuth;
                        CipherSuite := CipherSuiteX25519AESGCM |}
                else {| Flags := flagsReply; CipherSuite := CipherSuiteX25519AESGCM |})
               = replyHeaderOf auth) by (destruct auth; reflexivity).
  rewrite Hh.
  rewrite slice_ok by (rewrite length_app; cbn [length binary_Write app]; lia).
  rewrite binary_Write_bytes at 1. cbn [app drop take Nat.sub mbind result_bind].
  rewrite Seal_ok by exact Hn.
  rewrite <- app_assoc, <- binary_Write_bytes. reflexivity.
Qed.

Lemma replyHeaderOf_fits (auth : bool) :
  headerFits (replyHeaderOf auth) /\
  (Z.land (Flags (replyHeaderOf auth)) flagsReply =? 0) = false /\
  CipherSuite (replyHeaderOf auth) = CipherSuiteX25519AESGCM /\
  (Z.land (Flags (replyHeaderOf auth)) flagsClientAuth =? 0) = negb auth.
Proof.
  unfold replyHeaderOf, headerFits.
  destruct auth; repeat split; try reflexivity; cbv; congruence.
Qed.

(** The client's reply closure on a packet laid out as a reply: the
    checks in the order of the source. *)
Lemma clientReplyHandler_layout (g : AEAD) (dhParam nonce : bytes)
    (client : clientX25519AESGCM128) (auth : bool) (bound ct : bytes) :
  length nonce = 12%nat -> length bound = 32%nat ->
  let st := {| c_aesgcm := Some g; c_dhParam := dhParam; c_serverNonce := nonce |} in
  clientReplyHandler st client (binary_Write [] (replyHeaderOf auth) ++ bound ++ ct)
  = if negb (eqb (bool_decide (clientPublicKey client = None)) (negb auth))
    then (Err (PSSSTError "Reply client auth mismatch"), st)
    else if negb (bytes_Equal bound dhParam)
    then (Err (PSSSTError "Request/reply mismatch"), st)
    else (match gcm_open (gcmKey g) nonce ct (binary_Write [] (replyHeaderOf auth)) with
          | Some p => Ok p
          | None => Err cipher_errOpen
          end,
          {| c_aesgcm := None; c_dhParam := dhParam; c_serverNonce := nonce |}).
Proof.
  intros Hn Hb st. unfold clientReplyHandler. subst st.
  cbn [c_aesgcm c_dhParam c_serverNonce].
  destruct (replyHeaderOf_fits auth) as (Hfit & Hreply & Hsuite & Hauth).
  rewrite binary_Read_Write by exact Hfit. rewrite Hreply, Hauth, Hsuite.
  destruct (negb (eqb _ _)); [reflexivity|].
  cbn [Z.eqb Pos.eqb negb CipherSuiteX25519AESGCM].
  destruct (packet_slices (replyHeaderOf auth) bound ct Hb) as (-> & -> & -> & _).
  destruct (negb (bytes_Equal bound dhParam)); [reflexivity|].
  cbn [mbind result_bind mret result_ret]. rewrite Open_ok by exact Hn.
  destruct (gcm_open _ _ _ _); reflexivity.
Qed.

End RoundTrip.

(** ** The cached client keys stay consistent *)

Lemma newClient_consistent `{Primitives} (serverPublic : bytes) (priv : option bytes) :
  clientKeysConsistent (newClient serverPublic priv).
Proof. unfold clientKeysConsistent, newClient. destruct priv; cbn; auto. Qed.

Lemma PackOutgoing_keeps_consistent `{Primitives} (client client' : clientX25519AESGCM128)
    (data : bytes) (rand_Reader rand_Reader' : Reader)
    (r : result (bytes * clientReplyState)) :
  clientKeysConsistent client ->
  PackOutgoing client data rand_Reader = (r, client', rand_Reader') ->
  clientKeysConsistent client' /\
  ClientPrivateKey client' = ClientPrivateKey client /\
  ServerPublicKey client' = ServerPublicKey client.
Proof.
  intros Hcons. unfold PackOutgoing.
  destruct (generateX22519Private None rand_Reader) as [[g o] rd].
  destruct g as [secret|e|]; try (intros [= _ <- _]; auto).
  destruct (packWithSecret client data secret) as [packed c1] eqn:Hpack.
  intros [= _ <- _]. exact (packWithSecret_keeps_consistent _ _ _ _ _ Hcons Hpack).
Qed.

Lemma PackOutgoing_keeps_filled `{Primitives} (client : clientX25519AESGCM128)
    (pub data : bytes) (rand_Reader : Reader) :
  clientPublicKey client = Some pub ->
  snd (fst (PackOutgoing client data rand_Reader)) = client.
Proof.
  intros Hpub. unfold PackOutgoing.
  destruct (generateX22519Private None rand_Reader) as [[g o] rd].
  destruct g as [secret|e|]; try reflexivity.
  unfold packWithSecret, fillClientKeys. rewrite Hpub.
  destruct (ClientPrivateKey client); reflexivity.
Qed.

(** Once a request has been packed, further packs do not change whether
    the context holds a cached public key, which is what the client's
    reply closure looks at. *)
Lemma packMore_keeps_mode `{Primitives} (client : clientX25519AESGCM128)
    (more : list (bytes * Reader)) :
  clientKeysConsistent client ->
  hasPrivateKey client = false \/ clientPublicKey client <> None ->
  (clientPublicKey (packMore client more) = None <-> clientPublicKey client = None).
Proof.
  revert client. induction more as [|[data rd] rest IH]; intros client Hcons Hmode;
    [reflexivity|].
  cbn [packMore]. destruct Hmode as [Hanon | Hfilled].
  - destruct (PackOutgoing client data rd) as [[r c1] rd'] eqn:Hpack. cbn [fst snd].
    destruct (PackOutgoing_keeps_consistent _ _ _ _ _ _ Hcons Hpack) as (Hc1 & Hpriv & _).
    assert (Hanon1 : hasPrivateKey c1 = false)
      by (unfold hasPrivateKey in *; rewrite Hpriv; exact Hanon).
    rewrite (IH c1 Hc1 (or_introl Hanon1)).
    unfold clientKeysConsistent, hasPrivateKey in *.
    destruct (ClientPrivateKey c1); [discriminate|].
    destruct (ClientPrivateKey client); [discriminate|]. tauto.
  - destruct (clientPublicKey client) as [pub|] eqn:Hpub; [|contradiction].
    rewrite (PackOutgoing_keeps_filled client pub) by exact Hpub.
    rewrite (IH client Hcons); [rewrite Hpub; reflexivity|].
    right. rewrite Hpub. discriminate.
Qed.

(** * The claims *)

Section Claims.
Context {P : Primitives} {L : PrimitiveLaws P}.

(** C8: with [H] the SHA-256 digest of [dhParam || sharedSecret], the key
    derivation returns the key [H[0..16]], the client nonce
    [H[16..24] || "RQST"] and the server nonce [H[24..32] || "RPLY"], of
    16, 12 and 12 bytes; this holds for inputs of any length, the 32-byte
    ones among them. *)
Theorem kdf_splits_digest (dhParam sharedSecret : bytes) :
  let H := sha256_Sum256 (dhParam ++ sharedSecret) in
  kdfX25519AESGCM128 dhParam sharedSecret
  = Ok (take 16 H,
        take 8 (drop 16 H) ++ stringBytes "RQST",
        take 8 (drop 24 H) ++ stringBytes "RPLY") /\
  length (take 16 H) = 16%nat /\
  length (take 8 (drop 16 H) ++ stringBytes "RQST") = 12%nat /\
  length (take 8 (drop 24 H) ++ stringBytes "RPLY") = 12%nat /\
  stringBytes "RQST" = [82; 81; 83; 84] /\ stringBytes "RPLY" = [82; 80; 76; 89].
Proof.
  intros H. split; [apply kdf_closed_form|].
  split; [apply kdfKey_length|].
  split; [apply kdfClientNonce_length|].
  split; [apply kdfServerNonce_length|].
  split; reflexivity.
Qed.

(** C1: a request packed by a client context that holds the server's
    public key is unpacked by the server to the payload that was packed;
    the client public key returned is absent when the client holds no
    private key, and is [X25519(priv, Basepoint)] when it holds [priv]. *)
Theorem request_round_trip (server : serverX22519AESGCM128)
    (client client' : clientX25519AESGCM128) (data packet : bytes)
    (rand_Reader rand_Reader' : Reader) (st : clientReplyState) :
  X25519 (ServerPrivateKey server) Basepoint = Some (ServerPublicKey client) ->
  clientKeysConsistent client ->
  PackOutgoing client data rand_Reader = (Ok (packet, st), client', rand_Reader') ->
  exists replyState,
    UnpackIncoming server packet
    = Ok (data, replyState,
          match ClientPrivateKey client with
          | None => None
          | Some priv => X25519 priv Basepoint
          end).
Proof.
  intros Hkey Hcons Hpack.
  destruct (pack_then_unpack _ _ _ _ _ _ _ _ Hkey Hcons Hpack)
    as (dhParam & sharedSecret & _ & _ & _ & Hun).
  eexists. rewrite Hun. destruct (ClientPrivateKey client); reflexivity.
Qed.

(** C2: in either mode, the packet the server's reply closure makes of a
    reply payload is decoded by the reply closure of the request to that
    payload; the client context may have packed further requests in
    between. *)
Theorem reply_round_trip (server : serverX22519AESGCM128)
    (client client' : clientX25519AESGCM128) (data packet reply : bytes)
    (rand_Reader rand_Reader' : Reader) (st : clientReplyState)
    (more : list (bytes * Reader)) :
  X25519 (ServerPrivateKey server) Basepoint = Some (ServerPublicKey client) ->
  clientKeysConsistent client ->
  PackOutgoing client data rand_Reader = (Ok (packet, st), client', rand_Reader') ->
  exists plaintext replyState clientKey replyPacket replyState' st',
    UnpackIncoming server packet = Ok (plaintext, replyState, clientKey) /\
    serverReplyHandler replyState reply = (Ok replyPacket, replyState') /\
    clientReplyHandler st (packMore client' more) replyPacket = (Ok reply, st').
Proof.
  intros Hkey Hcons Hpack.
  destruct (pack_then_unpack _ _ _ _ _ _ _ _ Hkey Hcons Hpack)
    as (dhParam & sharedSecret & Hdl & -> & Hmode & Hun).
  destruct (PackOutgoing_keeps_consistent _ _ _ _ _ _ Hcons Hpack) as (Hcons' & Hpriv & _).
  pose proof (kdfServerNonce_length dhParam sharedSecret) as Hn.
  do 6 eexists. split; [exact Hun|]. split; [apply serverReplyHandler_fresh; exact Hn|].
  rewrite clientReplyHandler_layout by assumption.
  assert (Hlater : clientPublicKey (packMore client' more) = None
                   <-> hasPrivateKey client = false).
  { rewrite <- Hmode. apply packMore_keeps_mode; [exact Hcons'|].
    destruct (hasPrivateKey client) eqn:Hhas.
    - right. intros Hnone. apply Hmode in Hnone. discriminate.
    - left. unfold hasPrivateKey in *. rewrite Hpriv. exact Hhas. }
  assert (Hm : eqb (bool_decide (clientPublicKey (packMore client' more) = None))
                   (negb (hasPrivateKey client)) = true).
  { destruct (hasPrivateKey client); case_bool_decide as Hk; try reflexivity; exfalso.
    - apply Hlater in Hk. discriminate.
    - apply Hk, Hlater. reflexivity. }
  rewrite Hm. cbn [negb]. unfold bytes_Equal. rewrite bool_decide_true by reflexivity.
  cbn [negb gcmKey]. rewrite gcm_open_seal. reflexivity.
Qed.

(** C10: when [UnpackIncoming] has opened a request whose CLIENT_AUTH flag
    is set and whose payload has fewer than 64 bytes, it panics; and any
    party that knows the server's public key makes such a packet with the
    anonymous key schedule. *)
Theorem short_authenticated_payload_panics (server : serverX22519AESGCM128) :
  (forall (packetBytes : bytes) (h : header) (o : openedRequest),
     binary_Read packetBytes = Ok h ->
     Z.land (Flags h) flagsClientAuth <> 0 ->
     openRequest server packetBytes = Ok o ->
     (length (o_payload o) < 64)%nat ->
     UnpackIncoming server packetBytes = Panic) /\
  (forall (serverPublic secret data packetBytes : bytes) (st : clientReplyState),
     X25519 (ServerPrivateKey server) Basepoint = Some serverPublic ->
     (length data < 64)%nat ->
     craftRequest {| Flags := flagsClientAuth; CipherSuite := CipherSuiteX25519AESGCM |}
                  secret serverPublic data = Ok (packetBytes, st) ->
     (exists o, openRequest server packetBytes = Ok o /\ o_payload o = data) /\
     UnpackIncoming server packetBytes = Panic).
Proof.
  assert (Hshort : forall packetBytes o,
             openRequest server packetBytes = Ok o -> o_hasClientAuth o = true ->
             (length (o_payload o) < 64)%nat -> UnpackIncoming server packetBytes = Panic).
  { intros packetBytes o Ho Hauth Hlen. unfold UnpackIncoming. rewrite Ho.
    cbn [mbind result_bind]. unfold checkClientAuth. rewrite Hauth.
    destruct (decide (32 <= length (o_payload o))%nat) as [H32|H32].
    - rewrite (slice_ok 0 32) by lia. cbn [mbind result_bind].
      rewrite (slice_panics 32 64) by lia. reflexivity.
    - rewrite (slice_panics 0 32) by lia. reflexivity. }
  split.
  - intros packetBytes h o Hh Hflag Ho Hlen. apply (Hshort _ o Ho); [|exact Hlen].
    destruct (openRequest_inv _ _ _ Ho) as (h' & _ & _ & _ & Hh' & _ & _ & -> & _).
    rewrite Hh in Hh'. injection Hh' as <-.
    destruct (Z.eqb_spec (Z.land (Flags h) flagsClientAuth) 0); [contradiction|reflexivity].
  - intros serverPublic secret data packetBytes st Hkey Hlen. unfold craftRequest.
    destruct (X25519 secret Basepoint) as [dhParam|] eqn:Hdh; [|discriminate].
    destruct (X25519 secret serverPublic) as [sharedSecret|] eqn:Hss; [|discriminate].
    cbn [ofX25519 mbind result_bind]. rewrite sealRequest_closed_form.
    intros Hseal. apply Ok_pair_inj in Hseal. destruct Hseal as [<- <-].
    pose proof (X25519_length _ _ _ Hdh) as (_ & _ & Hdl).
    assert (Ho : openRequest server
                   (binary_Write [] {| Flags := flagsClientAuth;
                                       CipherSuite := CipherSuiteX25519AESGCM |}
                    ++ dhParam ++
                    gcm_seal (kdfKey dhParam sharedSecret)
                      (kdfClientNonce dhParam sharedSecret) data
                      (binary_Write [] {| Flags := flagsClientAuth;
                                          CipherSuite := CipherSuiteX25519AESGCM |}))
                 = Ok {| o_hasClientAuth := true; o_dhParam := dhParam;
                         o_aesgcm := {| gcmKey := kdfKey dhParam sharedSecret |};
                         o_serverNonce := kdfServerNonce dhParam sharedSecret;
                         o_payload := data |}).
    { rewrite (openRequest_layout server _ dhParam sharedSecret).
      - rewrite gcm_open_seal. reflexivity.
      - split; cbv; split; congruence.
      - reflexivity.
      - reflexivity.
      - exact Hdl.
      - rewrite (X25519_swap _ _ _ _ _ Hdh Hkey). exact Hss. }
    split; [eexists; split; [exact Ho|reflexivity]|].
    apply (Hshort _ _ Ho); [reflexivity|exact Hlen].
Qed.

(** C6, as the code has it: a packet whose suite byte is not [0x01] gets
    the unsupported-suite error when its REPLY flag is clear, whatever its
    other flag bits; when the REPLY flag is set the direction check comes
    first and the error is "Packet is a reply". *)
Theorem unsupported_suite_after_direction (server : serverX22519AESGCM128)
    (packetBytes : bytes) (h : header) :
  binary_Read packetBytes = Ok h ->
  CipherSuite h <> CipherSuiteX25519AESGCM ->
  UnpackIncoming server packetBytes
  = Err (PSSSTError (if Z.land (Flags h) flagsReply =? 0
                     then "Unsuported cipher suite"
                     else "Packet is a reply")).
Proof.
  intros Hh Hsuite. unfold UnpackIncoming, openRequest. rewrite Hh.
  cbn [mbind result_bind].
  destruct (Z.land (Flags h) flagsReply =? 0); cbn [negb]; [|reflexivity].
  destruct (Z.eqb_spec (CipherSuite h) CipherSuiteX25519AESGCM); [contradiction|].
  reflexivity.
Qed.

(** C7, as the code has it: the reserved flag bits are not examined.  A
    request whose header has any reserved bits set, with REPLY and
    CLIENT_AUTH clear and suite [0x01], sealed under the anonymous key
    schedule with that header as additional data, is accepted and its
    payload returned. *)
Theorem reserved_flags_not_checked (server : serverX22519AESGCM128) (h : header)
    (serverPublic secret data packetBytes : bytes) (st : clientReplyState) :
  X25519 (ServerPrivateKey server) Basepoint = Some serverPublic ->
  headerFits h ->
  Z.land (Flags h) flagsReply = 0 ->
  Z.land (Flags h) flagsClientAuth = 0 ->
  CipherSuite h = CipherSuiteX25519AESGCM ->
  craftRequest h secret serverPublic data = Ok (packetBytes, st) ->
  binary_Read packetBytes = Ok h /\
  exists rs, UnpackIncoming server packetBytes = Ok (data, rs, None).
Proof.
  intros Hkey Hfit Hreply Hauth Hsuite. unfold craftRequest.
  destruct (X25519 secret Basepoint) as [dhParam|] eqn:Hdh; [|discriminate].
  destruct (X25519 secret serverPublic) as [sharedSecret|] eqn:Hss; [|discriminate].
  cbn [ofX25519 mbind result_bind]. rewrite sealRequest_closed_form.
  intros Hseal. apply Ok_pair_inj in Hseal. destruct Hseal as [<- <-].
  pose proof (X25519_length _ _ _ Hdh) as (_ & _ & Hdl).
  split; [apply binary_Read_Write; exact Hfit|].
  eexists. unfold UnpackIncoming.
  rewrite (openRequest_layout server _ dhParam sharedSecret); try assumption.
  2:{ rewrite (X25519_swap _ _ _ _ _ Hdh Hkey). exact Hss. }
  rewrite gcm_open_seal, Hauth. reflexivity.
Qed.

(** C3, as the code has it: when the two requests differ in their key
    agreement values, the reply made for the second, given to the reply
    closure of the first, is rejected and leaves that closure as it was:
    with "Request/reply mismatch" when both requests were packed in the
    same mode, and with "Reply client auth mismatch", the earlier check,
    when one was anonymous and the other authenticated. *)
Theorem other_reply_is_rejected (server : serverX22519AESGCM128)
    (c1 c1' c2 c2' : clientX25519AESGCM128) (d1 d2 p1 p2 : bytes)
    (rd1 rd1' rd2 rd2' : Reader) (st1 st2 : clientReplyState)
    (data2 reply replyPacket : bytes) (rs rs' : serverReplyState) (key : option bytes) :
  clientKeysConsistent c1 -> clientKeysConsistent c2 ->
  PackOutgoing c1 d1 rd1 = (Ok (p1, st1), c1', rd1') ->
  PackOutgoing c2 d2 rd2 = (Ok (p2, st2), c2', rd2') ->
  UnpackIncoming server p2 = Ok (data2, rs, key) ->
  serverReplyHandler rs reply = (Ok replyPacket, rs') ->
  c_dhParam st1 <> c_dhParam st2 ->
  clientReplyHandler st1 c1' replyPacket
  = (Err (PSSSTError (if eqb (hasPrivateKey c1) (hasPrivateKey c2)
                      then "Request/reply mismatch"
                      else "Reply client auth mismatch")),
     st1).
Proof.
  intros Hc1 Hc2 Hp1 Hp2 Hun Hreply Hne.
  destruct (PackOutgoing_layout _ _ _ _ _ _ _ Hc1 Hp1)
    as (dh1 & g1 & n1 & ct1 & Hdl1 & Hn1 & _ & -> & Hmode1).
  destruct (PackOutgoing_layout _ _ _ _ _ _ _ Hc2 Hp2)
    as (dh2 & g2 & n2 & ct2 & Hdl2 & Hn2 & -> & -> & _).
  cbn [c_dhParam] in Hne.
  destruct (UnpackIncoming_state _ _ _ _ _ Hun) as (h & g & Hh & Hg & Hauth & Hdh & Hn).
  destruct (requestHeaderOf_fits c2) as (Hfit & _ & _ & Hflag).
  rewrite binary_Read_Write in Hh by exact Hfit. injection Hh as <-.
  rewrite Hflag in Hauth.
  destruct (packet_slices (requestHeaderOf c2) dh2 ct2 Hdl2) as (Hs & _).
  rewrite Hs in Hdh. injection Hdh as Hdh.
  destruct rs as [a auth dh n]. cbn [s_aesgcm s_hasClientAuth s_dhParam s_serverNonce] in *.
  subst a auth dh. rewrite serverReplyHandler_fresh in Hreply by exact Hn.
  apply pair_equal_spec in Hreply. destruct Hreply as [Hreply _].
  match type of Hreply with
  | Ok ?made = Ok _ => assert (Hmade : replyPacket = made) by congruence
  end.
  rewrite Hmade.
  rewrite clientReplyHandler_layout by assumption.
  assert (Hm : bool_decide (clientPublicKey c1' = None) = negb (hasPrivateKey c1)).
  { destruct (hasPrivateKey c1); case_bool_decide as Hk; try reflexivity; exfalso.
    - apply Hmode1 in Hk. discriminate.
    - apply Hk, Hmode1. reflexivity. }
  rewrite Hm. unfold bytes_Equal. rewrite bool_decide_false by congruence.
  destruct (hasPrivateKey c1), (hasPrivateKey c2); reflexivity.
Qed.

(** C4, as the code has it.  The server's reply closure is consumed by
    its first invocation: every later one fails with "reply handler
    already used".  The client's reply closure is consumed by an
    invocation that reaches the AEAD opening, which shows in its outcome
    being the plaintext or the AEAD's error; every later invocation then
    fails with "reply handler already used".  An invocation with any
    other outcome leaves the client's closure as it was. *)
Theorem reply_closures_consumed :
  (forall (server : serverX22519AESGCM128) (packetBytes data : bytes)
          (rs : serverReplyState) (key : option bytes) (first : bytes) (later : list bytes),
     UnpackIncoming server packetBytes = Ok (data, rs, key) ->
     exists replyPacket,
       invokeAll serverReplyHandler rs (first :: later)
       = Ok replyPacket
         :: ((fun _ => Err (PSSSTError "reply handler already used")) <$> later)) /\
  (forall (st st1 : clientReplyState) (client : clientX25519AESGCM128) (first : bytes)
          (r : result bytes) (later : list (clientX25519AESGCM128 * bytes)),
     clientReplyHandler st client first = (r, st1) ->
     r = Err cipher_errOpen \/ (exists p, r = Ok p) ->
     invokeAll (fun s cp => clientReplyHandler s (fst cp) (snd cp)) st1 later
     = (fun _ => Err (PSSSTError "reply handler already used")) <$> later) /\
  (forall (st st1 : clientReplyState) (client : clientX25519AESGCM128) (first : bytes)
          (r : result bytes),
     clientReplyHandler st client first = (r, st1) ->
     r <> Err cipher_errOpen -> (forall p, r <> Ok p) ->
     st1 = st).
Proof.
  assert (Hserver : forall (rs : serverReplyState) (later : list bytes),
             s_aesgcm rs = None ->
             invokeAll serverReplyHandler rs later
             = (fun _ => Err (PSSSTError "reply handler already used")) <$> later).
  { intros rs later Hn. induction later as [|d later IH]; [reflexivity|].
    cbn [invokeAll]. unfold serverReplyHandler at 1. rewrite Hn, IH. reflexivity. }
  assert (Hclient : forall (st : clientReplyState)
                           (later : list (clientX25519AESGCM128 * bytes)),
             c_aesgcm st = None ->
             invokeAll (fun s cp => clientReplyHandler s (fst cp) (snd cp)) st later
             = (fun _ => Err (PSSSTError "reply handler already used")) <$> later).
  { intros st later Hn. induction later as [|d later IH]; [reflexivity|].
    cbn [invokeAll]. unfold clientReplyHandler at 1. rewrite Hn, IH. reflexivity. }
  assert (Hstep : forall st st1 client first r,
             clientReplyHandler st client first = (r, st1) ->
             (st1 = st /\ r <> Err cipher_errOpen /\ (forall p, r <> Ok p)) \/
             (c_aesgcm st1 = None /\ (r = Err cipher_errOpen \/ exists p, r = Ok p))).
  { intros st st1 client first r. unfold clientReplyHandler.
    destruct (c_aesgcm st) as [g|];
      [|intros [= <- <-]; left; repeat split; intros; discriminate].
    destruct (binary_Read first) as [h|e|] eqn:Hh.
    2:{ intros [= <- <-]. left. repeat split; [|intros; discriminate].
        destruct first as [|? [|? [|? [|? ?]]]]; cbn in Hh; congruence. }
    2:{ intros [= <- <-]. left. repeat split; intros; discriminate. }
    destruct (Z.land (Flags h) flagsReply =? 0);
      [intros [= <- <-]; left; repeat split; intros; discriminate|].
    destruct (negb (eqb _ _));
      [intros [= <- <-]; left; repeat split; intros; discriminate|].
    destruct (negb (CipherSuite h =? CipherSuiteX25519AESGCM));
      [intros [= <- <-]; left; repeat split; intros; discriminate|].
    unfold slice, sliceFrom.
    case_bool_decide; [|intros [= <- <-]; left; repeat split; intros; discriminate].
    destruct (negb (bytes_Equal _ _));
      [intros [= <- <-]; left; repeat split; intros; discriminate|].
    rewrite bool_decide_true by lia. cbn [mbind result_bind].
    rewrite bool_decide_true by lia. cbn [mbind result_bind mret result_ret].
    unfold Open. case_bool_decide;
      [|intros [= <- <-]; left; repeat split; intros; discriminate].
    destruct (gcm_open _ _ _ _) as [p|]; intros [= <- <-]; right; split;
      try reflexivity; [right; exists p; reflexivity | left; reflexivity]. }
  split; [|split].
  - intros server packetBytes data rs key first later Hun.
    destruct (UnpackIncoming_state _ _ _ _ _ Hun) as (h & g & _ & Hg & _ & _ & Hn).
    destruct rs as [a auth dh n]. cbn [s_aesgcm s_serverNonce] in *. subst a.
    eexists. cbn [invokeAll]. rewrite serverReplyHandler_fresh by exact Hn.
    rewrite Hserver by reflexivity. reflexivity.
  - intros st st1 client first r later Hcall Hr. apply Hclient.
    destruct (Hstep _ _ _ _ _ Hcall) as [(_ & Hno & Hnk) | (Hn & _)]; [|exact Hn].
    destruct Hr as [-> | [p ->]]; [contradiction | exfalso; apply (Hnk p); reflexivity].
  - intros st st1 client first r Hcall Hno Hnk.
    destruct (Hstep _ _ _ _ _ Hcall) as [(Heq & _) | (_ & Hr)]; [exact Heq|].
    destruct Hr as [-> | [p ->]]; [contradiction | exfalso; apply (Hnk p); reflexivity].
Qed.

End Claims.

(** ** Short inputs *)

Lemma binary_Read_short (packetBytes : bytes) :
  (length packetBytes < 4)%nat ->
  exists e, (e = io_EOF \/ e = io_ErrUnexpectedEOF) /\ binary_Read packetBytes = Err e.
Proof.
  intros Hlen. destruct packetBytes as [|b0 [|b1 [|b2 [|b3 rest]]]];
    cbn [length] in Hlen; try lia; eexists; (split; [|reflexivity]); auto.
Qed.

Lemma binary_Read_long (packetBytes : bytes) :
  (4 <= length packetBytes)%nat -> exists h, binary_Read packetBytes = Ok h.
Proof.
  intros Hlen. destruct packetBytes as [|b0 [|b1 [|b2 [|b3 rest]]]];
    cbn [length] in Hlen; try lia. eexists. reflexivity.
Qed.

(** C5, as the code has it.  On an input of fewer than 4 bytes
    [UnpackIncoming] and a fresh client reply closure return the error of
    the header read, [io.EOF] or [io.ErrUnexpectedEOF], whatever the
    primitives are: nothing cryptographic has run.  On an input of 36 to
    51 bytes, whose ciphertext section is shorter than the tag, both
    return an error and do not panic, but there is no check of the length:
    the header checks come first, and where they pass, [UnpackIncoming]
    runs the key agreement and returns its error or, after the key
    derivation, the error of the AEAD opening, and the closure returns the
    error of the AEAD opening. *)
Theorem short_input_outcomes (server : serverX22519AESGCM128)
    (client : clientX25519AESGCM128) (st : clientReplyState) (g : AEAD)
    (packetBytes : bytes) :
  c_aesgcm st = Some g ->
  ((length packetBytes < 4)%nat ->
   exists e, (e = io_EOF \/ e = io_ErrUnexpectedEOF) /\
     forall P : Primitives,
       @UnpackIncoming P server packetBytes = Err e /\
       @clientReplyHandler P st client packetBytes = (Err e, st)) /\
  ((36 <= length packetBytes < 52)%nat ->
   forall P : Primitives, PrimitiveLaws P ->
     length (c_serverNonce st) = 12%nat ->
     exists h,
       binary_Read packetBytes = Ok h /\
       @UnpackIncoming P server packetBytes
       = Err (if negb (Z.land (Flags h) flagsReply =? 0)
              then PSSSTError "Packet is a reply"
              else if negb (CipherSuite h =? CipherSuiteX25519AESGCM)
              then PSSSTError "Unsuported cipher suite"
              else match X25519 (ServerPrivateKey server) (take 32 (drop 4 packetBytes)) with
                   | None => X25519_error
                   | Some _ => cipher_errOpen
                   end) /\
       fst (@clientReplyHandler P st client packetBytes)
       = Err (if Z.land (Flags h) flagsReply =? 0
              then PSSSTError "Packet is not a reply"
              else if negb (eqb (bool_decide (clientPublicKey client = None))
                                (Z.land (Flags h) flagsClientAuth =? 0))
              then PSSSTError "Reply client auth mismatch"
              else if negb (CipherSuite h =? CipherSuiteX25519AESGCM)
              then PSSSTError "Unsuported cipher suite"
              else if negb (bytes_Equal (take 32 (drop 4 packetBytes)) (c_dhParam st))
              then PSSSTError "Request/reply mismatch"
              else cipher_errOpen)).
Proof.
  intros Hg. split.
  - intros Hlen. destruct (binary_Read_short _ Hlen) as (e & He & Hh).
    exists e. split; [exact He|]. intros P. split.
    + unfold UnpackIncoming, openRequest. rewrite Hh. reflexivity.
    + unfold clientReplyHandler. rewrite Hg, Hh. reflexivity.
  - intros Hlen P L Hn. destruct (binary_Read_long packetBytes) as (h & Hh); [lia|].
    assert (Hct : (length (drop 36 packetBytes) < 16)%nat)
      by (rewrite length_drop; lia).
    exists h. split; [exact Hh|]. split.
    + unfold UnpackIncoming, openRequest. rewrite Hh. cbn [mbind result_bind].
      destruct (negb (Z.land (Flags h) flagsReply =? 0)); [reflexivity|].
      destruct (negb (CipherSuite h =? CipherSuiteX25519AESGCM)); [reflexivity|].
      rewrite (slice_ok 4 36) by lia. cbn [mbind result_bind].
      change (36 - 4)%nat with 32%nat.
      destruct (X25519 _ _) as [sharedSecret|];
        cbn [ofX25519 mbind result_bind]; [|reflexivity].
      rewrite kdf_closed_form. cbn [mbind result_bind].
      rewrite aes_NewCipher_kdfKey. cbn [mbind result_bind cipher_NewGCM].
      rewrite sliceFrom_ok, (slice_ok 0 4) by lia. cbn [mbind result_bind].
      rewrite Open_ok by apply kdfClientNonce_length.
      rewrite gcm_open_short by exact Hct. reflexivity.
    + unfold clientReplyHandler. rewrite Hg, Hh.
      destruct (Z.land (Flags h) flagsReply =? 0); [reflexivity|].
      destruct (negb (eqb _ _)); [reflexivity|].
      destruct (negb (CipherSuite h =? CipherSuiteX25519AESGCM)); [reflexivity|].
      rewrite (slice_ok 4 36) by lia. change (36 - 4)%nat with 32%nat.
      destruct (negb (bytes_Equal _ _)); [reflexivity|].
      rewrite sliceFrom_ok, (slice_ok 0 4) by lia.
      cbn [mbind result_bind mret result_ret].
      rewrite Open_ok by exact Hn. rewrite gcm_open_short by exact Hct.
      reflexivity.
Qed.

(** ** Where the session secret comes from *)

Section Sources.
Context {P : Primitives}.


End Sources.

(** * The claims on the small suite *)

Section Runs.
#[local] Existing Instance Toy.prims.
#[local] Existing Instance Toy_laws.

(** The two requests of the seed scenarios, with the payload ["hi"]. *)
Example anonymous_request_length : length (packetOf Toy.run1) = 54%nat.
Proof. vm_compute. reflexivity. Qed.

Example authenticated_request_length : length (packetOf Toy.run2) = 118%nat.
Proof. vm_compute. reflexivity. Qed.

Lemma kdf_splits_digest_witness :
  kdfX25519AESGCM128 Toy.serverPublic Toy.serverPrivate
  = Ok (take 16 (sha256_Sum256 (Toy.serverPublic ++ Toy.serverPrivate)),
        take 8 (drop 16 (sha256_Sum256 (Toy.serverPublic ++ Toy.serverPrivate)))
          ++ stringBytes "RQST",
        take 8 (drop 24 (sha256_Sum256 (Toy.serverPublic ++ Toy.serverPrivate)))
          ++ stringBytes "RPLY").
Proof.
  exact (proj1 (kdf_splits_digest (L := Toy_laws) Toy.serverPublic Toy.serverPrivate)).
Defined.

Lemma request_round_trip_witness :
  exists replyState,
    UnpackIncoming Toy.server (packetOf Toy.run2)
    = Ok (Toy.hi, replyState, X25519 Toy.clientPrivate Basepoint).
Proof.
  apply (request_round_trip (L := Toy_laws) Toy.server Toy.authenticated
           (clientOf Toy.run2) Toy.hi (packetOf Toy.run2) Toy.source2
           (readerOf Toy.run2) (closureOf Toy.run2)).
  - vm_compute. reflexivity.
  - apply newClient_consistent.
  - vm_compute. reflexivity.
Defined.

Lemma reply_round_trip_witness :
  exists plaintext replyState clientKey replyPacket replyState' st',
    UnpackIncoming Toy.server (packetOf Toy.run2) = Ok (plaintext, replyState, clientKey) /\
    serverReplyHandler replyState Toy.ok = (Ok replyPacket, replyState') /\
    clientReplyHandler (closureOf Toy.run2)
      (packMore (clientOf Toy.run2) [(Toy.ok, Toy.source1)]) replyPacket
    = (Ok Toy.ok, st').
Proof.
  apply (reply_round_trip (L := Toy_laws) Toy.server Toy.authenticated
           (clientOf Toy.run2) Toy.hi (packetOf Toy.run2) Toy.ok Toy.source2
           (readerOf Toy.run2) (closureOf Toy.run2) [(Toy.ok, Toy.source1)]).
  - vm_compute. reflexivity.
  - apply newClient_consistent.
  - vm_compute. reflexivity.
Defined.

Lemma other_reply_is_rejected_witness :
  clientReplyHandler (closureOf Toy.run1) (clientOf Toy.run1)
    (replyTo Toy.server (packetOf Toy.run3) Toy.ok)
  = (Err (PSSSTError "Request/reply mismatch"), closureOf Toy.run1).
Proof.
  apply (other_reply_is_rejected (L := Toy_laws) Toy.server
           Toy.anonymous (clientOf Toy.run1) Toy.anonymous (clientOf Toy.run3)
           Toy.hi Toy.hi (packetOf Toy.run1) (packetOf Toy.run3)
           Toy.source1 (readerOf Toy.run1) Toy.source2 (readerOf Toy.run3)
           (closureOf Toy.run1) (closureOf Toy.run3)
           Toy.hi Toy.ok (replyTo Toy.server (packetOf Toy.run3) Toy.ok)
           (replyStateOf (UnpackIncoming Toy.server (packetOf Toy.run3)))
           (snd (serverReplyHandler
                   (replyStateOf (UnpackIncoming Toy.server (packetOf Toy.run3))) Toy.ok))
           None).
  - apply newClient_consistent.
  - apply newClient_consistent.
  - vm_compute. reflexivity.
  - vm_compute. reflexivity.
  - vm_compute. reflexivity.
  - vm_compute. reflexivity.
  - vm_compute. discriminate.
Defined.

(** C3 fails as stated: the two secrets differ, the first request is
    anonymous and the second authenticated, and the reply to the second
    is refused by the first closure with the auth-flag error, not with
    the binding error. *)
Lemma reply_of_other_mode_is_auth_mismatch :
  fst (fst (generateX22519Private None Toy.source1))
    <> fst (fst (generateX22519Private None Toy.source2)) /\
  c_dhParam (closureOf Toy.run1) <> c_dhParam (closureOf Toy.run2) /\
  fst (clientReplyHandler (closureOf Toy.run1) (clientOf Toy.run1)
         (replyTo Toy.server (packetOf Toy.run2) Toy.ok))
  = Err (PSSSTError "Reply client auth mismatch") /\
  fst (clientReplyHandler (closureOf Toy.run1) (clientOf Toy.run1)
         (replyTo Toy.server (packetOf Toy.run2) Toy.ok))
  <> Err (PSSSTError "Request/reply mismatch").
Proof.
  split; [vm_compute; discriminate|]. split; [vm_compute; discriminate|].
  split; [vm_compute; reflexivity|]. vm_compute. discriminate.
Qed.

Lemma reply_closures_consumed_witness :
  exists replyPacket,
    invokeAll serverReplyHandler
      (replyStateOf (UnpackIncoming Toy.server (packetOf Toy.run1)))
      [Toy.ok; Toy.hi; Toy.ok]
    = [Ok replyPacket; Err (PSSSTError "reply handler already used");
       Err (PSSSTError "reply handler already used")].
Proof.
  apply (proj1 (reply_closures_consumed (L := Toy_laws)) Toy.server (packetOf Toy.run1)
           Toy.hi (replyStateOf (UnpackIncoming Toy.server (packetOf Toy.run1))) None
           Toy.ok [Toy.hi; Toy.ok]).
  vm_compute. reflexivity.
Defined.

(** C4 fails as stated: a first invocation that is rejected by the
    direction check does not use the client's closure up; the second
    invocation decodes the reply, and only the third finds the closure
    used. *)
Lemma rejected_reply_leaves_decoder_usable :
  invokeAll (fun s p => clientReplyHandler s (clientOf Toy.run1) p) (closureOf Toy.run1)
    [Toy.headerOnly; replyTo Toy.server (packetOf Toy.run1) Toy.ok; Toy.headerOnly]
  = [Err (PSSSTError "Packet is not a reply"); Ok Toy.ok;
     Err (PSSSTError "reply handler already used")].
Proof. vm_compute. reflexivity. Qed.

Lemma short_input_outcomes_witness :
  UnpackIncoming Toy.server Toy.short40 = Err cipher_errOpen /\
  fst (clientReplyHandler (closureOf Toy.run1) (clientOf Toy.run1) Toy.short40)
  = Err (PSSSTError "Packet is not a reply").
Proof.
  destruct (proj2 (short_input_outcomes Toy.server (clientOf Toy.run1) (closureOf Toy.run1)
                     {| gcmKey := gcmKey (default {| gcmKey := [] |}
                                            (c_aesgcm (closureOf Toy.run1))) |}
                     Toy.short40 ltac:(vm_compute; reflexivity))
              ltac:(vm_compute; lia) Toy.prims Toy_laws ltac:(vm_compute; reflexivity))
    as (h & Hh & Hunpack & Hreply).
  assert (Hhdr : h = {| Flags := 0; CipherSuite := 1 |})
    by (vm_compute in Hh; congruence).
  subst h. split.
  - rewrite Hunpack. vm_compute. reflexivity.
  - rewrite Hreply. vm_compute. reflexivity.
Defined.

(** C5 fails as stated: a 40-byte input with a good header gets as far as
    the AEAD opening, whose error it returns, and with a server key of the
    wrong length it returns the error of the key agreement. *)
Lemma short_packet_reaches_open :
  (length Toy.short40 < 52)%nat /\
  UnpackIncoming Toy.server Toy.short40 = Err cipher_errOpen /\
  UnpackIncoming (newServer []) Toy.short40 = Err X25519_error.
Proof.
  split; [vm_compute; lia|]. split; vm_compute; reflexivity.
Qed.

(** The bounds check that is missing before [packetBytes[4:36]]: a header
    alone makes [UnpackIncoming] panic. *)
Example header_only_request_panics : UnpackIncoming Toy.server Toy.headerOnly = Panic.
Proof. vm_compute. reflexivity. Qed.

Lemma unsupported_suite_after_direction_witness :
  UnpackIncoming Toy.server [0; 4; 2; 0] = Err (PSSSTError "Unsuported cipher suite").
Proof.
  apply (unsupported_suite_after_direction Toy.server [0; 4; 2; 0]
           {| Flags := 4; CipherSuite := 2 |}).
  - reflexivity.
  - discriminate.
Defined.

(** C6 fails as stated: with the REPLY flag set and suite [0x02] the
    error is the direction error. *)
Lemma reply_flag_hides_suite_error :
  binary_Read Toy.replyOfSuite2 = Ok {| Flags := 1; CipherSuite := 2 |} /\
  UnpackIncoming Toy.server Toy.replyOfSuite2 = Err (PSSSTError "Packet is a reply") /\
  UnpackIncoming Toy.server Toy.replyOfSuite2
  <> Err (PSSSTError "Unsuported cipher suite").
Proof.
  split; [reflexivity|]. split; [vm_compute; reflexivity|]. vm_compute. discriminate.
Qed.

Lemma reserved_flags_not_checked_witness :
  binary_Read (sealedPacket Toy.reservedRequest) = Ok Toy.reservedHeader /\
  exists rs, UnpackIncoming Toy.server (sealedPacket Toy.reservedRequest)
             = Ok (Toy.hi, rs, None).
Proof.
  apply (reserved_flags_not_checked (L := Toy_laws) Toy.server Toy.reservedHeader
           Toy.serverPublic Toy.otherSecret Toy.hi (sealedPacket Toy.reservedRequest)
           (sealedState Toy.reservedRequest)).
  - vm_compute. reflexivity.
  - vm_compute. split; split; congruence.
  - reflexivity.
  - reflexivity.
  - reflexivity.
  - vm_compute. reflexivity.
Defined.

(** C7 fails as stated: a request with reserved flag bit 2 set is
    accepted. *)
Lemma reserved_bit_request_is_accepted :
  reservedFlags Toy.reservedHeader <> 0 /\
  binary_Read (sealedPacket Toy.reservedRequest) = Ok Toy.reservedHeader /\
  UnpackIncoming Toy.server (sealedPacket Toy.reservedRequest)
  = Ok (Toy.hi, replyStateOf (UnpackIncoming Toy.server (sealedPacket Toy.reservedRequest)),
        None).
Proof.
  split; [vm_compute; discriminate|]. split; vm_compute; reflexivity.
Qed.



Lemma short_authenticated_payload_panics_witness :
  UnpackIncoming Toy.server (sealedPacket Toy.shortAuthRequest) = Panic.
Proof.
  apply (proj2 (short_authenticated_payload_panics (L := Toy_laws) Toy.server)
           Toy.serverPublic Toy.otherSecret Toy.hi (sealedPacket Toy.shortAuthRequest)
           (sealedState Toy.shortAuthRequest)).
  - vm_compute. reflexivity.
  - vm_compute. lia.
  - vm_compute. reflexivity.
Defined.

End Runs.

(** * Further properties of the file *)

Lemma slice_inv (lo hi : nat) (s r : bytes) :
  slice lo hi s = Ok r -> (lo <= hi <= length s)%nat /\ r = take (hi - lo) (drop lo s).
Proof.
  unfold slice. destruct (decide (lo <= hi <= length s)%nat) as [Hin|Hout].
  - rewrite bool_decide_true by exact Hin. intros [= <-]. auto.
  - rewrite bool_decide_false by exact Hout. discriminate.
Qed.

(** ** The scalars that are drawn (lines 29-61) *)

Lemma byte_cases (Q : Z -> bool) :
  forallb Q (Z.of_nat <$> seq 0 256) = true -> forall x, isByte x -> Q x = true.
Proof.
  intros Hall x [Hlo Hhi]. rewrite forallb_forall in Hall. apply Hall.
  apply in_map_iff. exists (Z.to_nat x). split; [lia|]. apply in_seq. lia.
Qed.

Lemma clamp_low_byte (x : Z) :
  isByte x -> isByte (Z.land x 248) /\ Z.land x 248 mod 8 = 0.
Proof.
  intros Hx.
  pose proof (byte_cases
    (fun x => (0 <=? Z.land x 248) && (Z.land x 248 <? 256) && (Z.land x 248 mod 8 =? 0))
    eq_refl x Hx) as H.
  cbv beta in H. apply andb_prop in H. destruct H as [H H3].
  apply andb_prop in H. destruct H as [H1 H2]. unfold isByte. lia.
Qed.

Lemma clamp_high_byte (y : Z) : isByte y -> 64 <= Z.lor (Z.land y 127) 64 < 128.
Proof.
  intros Hy.
  pose proof (byte_cases
    (fun y => (64 <=? Z.lor (Z.land y 127) 64) && (Z.lor (Z.land y 127) 64 <? 128))
    eq_refl y Hy) as H.
  cbv beta in H. apply andb_prop in H. lia.
Qed.

Lemma littleEndian_app (a b : bytes) :
  littleEndian (a ++ b) = littleEndian a + 256 ^ Z.of_nat (length a) * littleEndian b.
Proof.
  induction a as [|x a IH]; cbn [app littleEndian length].
  - rewrite Z.pow_0_r. lia.
  - rewrite IH, Nat2Z.inj_succ, Z.pow_succ_r by lia. lia.
Qed.

Lemma littleEndian_bound (s : bytes) :
  Forall isByte s -> 0 <= littleEndian s < 256 ^ Z.of_nat (length s).
Proof.
  induction 1 as [|x s Hx Hs IH]; cbn [littleEndian length].
  - rewrite Z.pow_0_r. lia.
  - rewrite Nat2Z.inj_succ, Z.pow_succ_r by lia. unfold isByte in Hx. lia.
Qed.

(** A 32-byte string is its first byte, thirty bytes, and its last byte,
    and clamping touches the first and the last. *)
Lemma clamp_ends (p : bytes) :
  length p = 32%nat ->
  exists x mid y,
    p = x :: mid ++ [y] /\ length mid = 30%nat /\
    clamp p = Z.land x 248 :: mid ++ [Z.lor (Z.land y 127) 64].
Proof.
  intros Hlen. destruct p as [|x t]; [discriminate|]. cbn [length] in Hlen.
  assert (Ht : length t = 31%nat) by lia.
  pose proof (take_drop 30 t) as Hsplit.
  destruct (drop 30 t) as [|y [|z r]] eqn:Hd.
  - apply (f_equal length) in Hd. rewrite length_drop, Ht in Hd. discriminate.
  - exists x, (take 30 t), y. rewrite Hsplit.
    assert (Hm : length (take 30 t) = 30%nat) by (rewrite length_take; lia).
    split; [reflexivity|]. split; [exact Hm|].
    unfold clamp. cbv zeta. rewrite <- Hsplit at 1.
    change (alter (fun b => Z.land b 248) 0%nat (x :: take 30 t ++ [y]))
      with (Z.land x 248 :: take 30 t ++ [y]).
    change (alter (fun b => Z.land b 127) 31%nat (Z.land x 248 :: take 30 t ++ [y]))
      with (Z.land x 248 :: alter (fun b => Z.land b 127) 30%nat (take 30 t ++ [y])).
    rewrite (alter_app_r_alt _ (take 30 t) [y] 30) by lia. rewrite Hm.
    change (alter (fun b => Z.land b 127) (30 - 30)%nat [y]) with [Z.land y 127].
    change (alter (fun b => Z.lor b 64) 31%nat (Z.land x 248 :: take 30 t ++ [Z.land y 127]))
      with (Z.land x 248 :: alter (fun b => Z.lor b 64) 30%nat (take 30 t ++ [Z.land y 127])).
    rewrite (alter_app_r_alt _ (take 30 t) [Z.land y 127] 30) by lia. rewrite Hm.
    reflexivity.
  - apply (f_equal length) in Hd. rewrite length_drop, Ht in Hd. discriminate.
Qed.

Lemma generateX22519Private_inv (random random' : option Reader)
    (rand_Reader rand_Reader' : Reader) (priv : bytes) :
  generateX22519Private random rand_Reader = (Ok priv, random', rand_Reader') ->
  (32 <= length (sourceUsed random rand_Reader))%nat /\
  priv = clamp (take 32 (sourceUsed random rand_Reader)) /\
  sourceUsed random' rand_Reader' = drop 32 (sourceUsed random rand_Reader).
Proof.
  unfold generateX22519Private, io_ReadFull, sourceUsed.
  destruct random as [rd|]; cbn [default from_option id].
  - case_bool_decide as Hn; [|destruct rd; discriminate].
    cbn [mbind result_bind mret result_ret]. intros [= <- <- <-]. auto.
  - case_bool_decide as Hn; [|destruct rand_Reader; discriminate].
    cbn [mbind result_bind mret result_ret]. intros [= <- <- <-]. auto.
Qed.

(** X1 (generateX22519Private, lines 29-49): a scalar that is returned has
    32 bytes; the low three bits of its byte 0 and the top bit of its byte
    31 are clear, bit 6 of byte 31 is set, and bytes 1 to 30 are the bytes
    the source yielded at those places. *)
Theorem generated_scalar_is_clamped (random random' : option Reader)
    (rand_Reader rand_Reader' : Reader) (priv : bytes) :
  generateX22519Private random rand_Reader = (Ok priv, random', rand_Reader') ->
  length priv = 32%nat /\
  (exists b0 b31,
     priv !! 0%nat = Some b0 /\ priv !! 31%nat = Some b31 /\
     Z.land b0 7 = 0 /\ Z.land b31 128 = 0 /\ Z.land b31 64 <> 0) /\
  (forall i, (0 < i < 31)%nat -> priv !! i = sourceUsed random rand_Reader !! i).
Proof.
  intros Hgen. pose proof (generateX22519Private_length _ _ _ _ _ Hgen) as Hlen.
  destruct (generateX22519Private_inv _ _ _ _ _ Hgen) as (Hsrc & Hpriv & _).
  split; [exact Hlen|]. split.
  - destruct (priv !! 0%nat) as [b0|] eqn:H0.
    2:{ apply lookup_ge_None in H0. lia. }
    destruct (priv !! 31%nat) as [b31|] eqn:H31.
    2:{ apply lookup_ge_None in H31. lia. }
    exists b0, b31. split; [reflexivity|]. split; [reflexivity|].
    rewrite Hpriv in H0, H31. exact (clamp_clamped _ _ _ H0 H31).
  - intros i Hi. rewrite Hpriv. unfold clamp. cbv zeta.
    rewrite !list_lookup_alter_ne by lia. apply lookup_take_lt. lia.
Qed.

(** X2 (generateX22519Private, lines 41-46): read as a little-endian
    number, as the comment in the source asks, a scalar drawn from a
    source of bytes lies in [2^254, 2^255) and is a multiple of 8. *)
Theorem generated_scalar_in_range (random random' : option Reader)
    (rand_Reader rand_Reader' : Reader) (priv : bytes) :
  Forall isByte (sourceUsed random rand_Reader) ->
  generateX22519Private random rand_Reader = (Ok priv, random', rand_Reader') ->
  2 ^ 254 <= littleEndian priv < 2 ^ 255 /\ littleEndian priv mod 8 = 0.
Proof.
  intros Hbytes Hgen.
  destruct (generateX22519Private_inv _ _ _ _ _ Hgen) as (Hsrc & -> & _).
  assert (Hread : Forall isByte (take 32 (sourceUsed random rand_Reader)))
    by (apply Forall_take; exact Hbytes).
  destruct (clamp_ends (take 32 (sourceUsed random rand_Reader)))
    as (x & mid & y & Hp & Hmid & ->); [rewrite length_take; lia|].
  rewrite Hp in Hread. apply Forall_cons in Hread. destruct Hread as [Hx Hrest].
  apply Forall_app in Hrest. destruct Hrest as [Hm Hy].
  apply Forall_inv in Hy.
  destruct (clamp_low_byte x Hx) as [[Hx0 Hx1] Hx8].
  pose proof (clamp_high_byte y Hy) as Hy'.
  pose proof (littleEndian_bound mid Hm) as Hb. rewrite Hmid in Hb.
  cbn [littleEndian]. rewrite littleEndian_app, Hmid. cbn [littleEndian].
  change (Z.of_nat 30) with 30 in *.
  set (hi := Z.lor (Z.land y 127) 64) in *. set (lo := Z.land x 248) in *.
  set (m := littleEndian mid) in *.
  assert (E30 : 256 ^ 30 = 2 ^ 240) by reflexivity.
  assert (E254 : 2 ^ 254 = 256 * (2 ^ 240 * 64)) by reflexivity.
  assert (E255 : 2 ^ 255 = 256 * (2 ^ 240 * 128)) by reflexivity.
  rewrite E30 in *. rewrite E254, E255.
  set (k := 2 ^ 240) in *. assert (Hk : 0 < k) by (subst k; reflexivity).
  split; [nia|].
  apply Z.mod_divide in Hx8; [|lia]. destruct Hx8 as [q Hq].
  apply Z.mod_divide; [lia|]. exists (q + 32 * (m + k * (hi + 0))). lia.
Qed.

(** ** What [PackOutgoing] returns and leaves behind (lines 80-184) *)

Section Packing.
Context {P : Primitives} {L : PrimitiveLaws P}.

Lemma fillClientKeys_outcome (client : clientX25519AESGCM128) (priv : bytes) :
  fst (fillClientKeys client priv) = Ok () \/
  fst (fillClientKeys client priv) = Err X25519_error.
Proof.
  unfold fillClientKeys. destruct (clientPublicKey client); [left; reflexivity|].
  destruct (X25519 priv Basepoint); [|right; reflexivity].
  cbn [ServerPublicKey]. destruct (X25519 priv (ServerPublicKey client));
    [left|right]; reflexivity.
Qed.

Lemma packWithSecret_outcome (client : clientX25519AESGCM128) (data secret : bytes) :
  (exists packet st, fst (packWithSecret client data secret) = Ok (packet, st)) \/
  fst (packWithSecret client data secret) = Err X25519_error.
Proof.
  unfold packWithSecret. destruct (ClientPrivateKey client) as [priv|].
  - cbv zeta. pose proof (fillClientKeys_outcome client priv) as Hfill.
    destruct (fillClientKeys client priv) as [filled c1]. cbn [fst] in *.
    destruct Hfill as [-> | ->]; cbn [mbind result_bind]; [|right; reflexivity].
    destruct (X25519 secret (sliceBytes (clientPublicKey c1)));
      cbn [ofX25519 mbind result_bind]; [|right; reflexivity].
    destruct (X25519 secret (sliceBytes (clientServerPublicKey c1)));
      cbn [ofX25519 mbind result_bind]; [|right; reflexivity].
    rewrite sealRequest_closed_form. left. eauto.
  - cbn [fst]. destruct (X25519 secret Basepoint);
      cbn [ofX25519 mbind result_bind]; [|right; reflexivity].
    destruct (X25519 secret (ServerPublicKey client));
      cbn [ofX25519 mbind result_bind]; [|right; reflexivity].
    rewrite sealRequest_closed_form. left. eauto.
Qed.

Lemma fillClientKeys_context (client : clientX25519AESGCM128) (priv : bytes) :
  ServerPublicKey (snd (fillClientKeys client priv)) = ServerPublicKey client /\
  ClientPrivateKey (snd (fillClientKeys client priv)) = ClientPrivateKey client /\
  (clientPublicKey client <> None -> snd (fillClientKeys client priv) = client).
Proof.
  unfold fillClientKeys. destruct (clientPublicKey client) as [pub|].
  - cbn [snd]. auto.
  - destruct (X25519 priv Basepoint); cbn [ServerPublicKey];
      [destruct (X25519 priv (ServerPublicKey client))|];
      cbn [snd ServerPublicKey ClientPrivateKey]; split; try reflexivity;
      split; try reflexivity; intros Hne; contradiction.
Qed.

Lemma PackOutgoing_context (client client' : clientX25519AESGCM128) (data : bytes)
    (rand_Reader rand_Reader' : Reader) (r : result (bytes * clientReplyState)) :
  PackOutgoing client data rand_Reader = (r, client', rand_Reader') ->
  client' = client \/
  exists priv, ClientPrivateKey client = Some priv /\
               client' = snd (fillClientKeys client priv).
Proof.
  unfold PackOutgoing.
  destruct (generateX22519Private None rand_Reader) as [[g o] rd].
  destruct g as [secret|e|]; try (intros [= _ <- _]; left; reflexivity).
  unfold packWithSecret. destruct (ClientPrivateKey client) as [priv|].
  - cbv zeta. destruct (fillClientKeys client priv) as [filled c1] eqn:Hfill.
    intros [= _ <- _]. right. exists priv. rewrite Hfill. split; reflexivity.
  - intros [= _ <- _]. left. reflexivity.
Qed.

(** X3 (PackOutgoing, lines 80-184): [PackOutgoing] never panics.  When
    [rand.Reader] has fewer than 32 bytes left it returns the reader's
    error and leaves the client context as it was; otherwise it takes
    exactly 32 bytes and either returns a packet or the error of
    [X25519]. *)
Theorem PackOutgoing_outcomes (client : clientX25519AESGCM128) (data : bytes)
    (rand_Reader : Reader) :
  ((length rand_Reader < 32)%nat ->
   PackOutgoing client data rand_Reader
   = (Err (match rand_Reader with [] => io_EOF | _ => io_ErrUnexpectedEOF end),
      client, [])) /\
  ((32 <= length rand_Reader)%nat ->
   snd (PackOutgoing client data rand_Reader) = drop 32 rand_Reader /\
   ((exists packet st, fst (fst (PackOutgoing client data rand_Reader)) = Ok (packet, st)) \/
    fst (fst (PackOutgoing client data rand_Reader)) = Err X25519_error)).
Proof.
  unfold PackOutgoing, generateX22519Private, io_ReadFull. split; intros Hlen.
  - rewrite bool_decide_false by lia. destruct rand_Reader; reflexivity.
  - rewrite bool_decide_true by lia. cbn [mbind result_bind mret result_ret].
    pose proof (packWithSecret_outcome client data (clamp (take 32 rand_Reader))) as Hout.
    destruct (packWithSecret client data (clamp (take 32 rand_Reader))) as [packed c1].
    cbn [fst snd] in *. split; [reflexivity|exact Hout].
Qed.

(** X4 (PackOutgoing, lines 89-143): the request packet is the header, the
    32-byte key agreement value the reply closure keeps, and the
    ciphertext.  The header has only CLIENT_AUTH among its flags, and has
    it exactly when the client context holds a private key; the suite is
    [0x01].  Where sealing adds a 16-byte tag, the packet is 52 bytes
    longer than the payload without a client key and 116 bytes longer
    with one. *)
Theorem request_packet_layout (client client' : clientX25519AESGCM128)
    (data packet : bytes) (rand_Reader rand_Reader' : Reader) (st : clientReplyState) :
  (forall k n p ad, length (gcm_seal k n p ad) = (length p + 16)%nat) ->
  clientKeysConsistent client ->
  PackOutgoing client data rand_Reader = (Ok (packet, st), client', rand_Reader') ->
  binary_Read packet
  = Ok {| Flags := if hasPrivateKey client then flagsClientAuth else 0;
          CipherSuite := CipherSuiteX25519AESGCM |} /\
  take 4 packet = [0; if hasPrivateKey client then 2 else 0; 1; 0] /\
  slice 4 36 packet = Ok (c_dhParam st) /\
  length packet
  = ((if hasPrivateKey client then 116 else 52) + length data)%nat.
Proof.
  intros Htag Hcons Hpack.
  destruct (PackOutgoing_inv _ _ _ _ _ _ _ Hcons Hpack)
    as (secret & dhParam & sharedSecret & plaintext & Hdl & Hseal & _ & Hkeys).
  rewrite sealRequest_closed_form in Hseal.
  apply Ok_pair_inj in Hseal. destruct Hseal as [<- <-]. cbn [c_dhParam].
  destruct (requestHeaderOf_fits client) as (Hfit & _).
  destruct (packet_slices (requestHeaderOf client) dhParam
              (gcm_seal (kdfKey dhParam sharedSecret) (kdfClientNonce dhParam sharedSecret)
                 plaintext (binary_Write [] (requestHeaderOf client))) Hdl)
    as (Hs & _ & _ & _).
  split; [|split; [|split]].
  - rewrite binary_Read_Write by exact Hfit. unfold requestHeaderOf.
    destruct (hasPrivateKey client); reflexivity.
  - unfold requestHeaderOf. destruct (hasPrivateKey client); reflexivity.
  - exact Hs.
  - rewrite !length_app, Htag, Hdl. unfold hasPrivateKey.
    destruct (ClientPrivateKey client) as [priv|].
    + destruct Hkeys as (pub & shared & Hb & _ & _ & _ & Hsec & ->).
      pose proof (X25519_length _ _ _ Hb) as (_ & _ & Hpl).
      rewrite !length_app, Hpl, Hsec. cbn [length binary_Write app]. lia.
    + destruct Hkeys as (_ & _ & ->). cbn [length binary_Write app]. lia.
Qed.

(** X5 (PackOutgoing, lines 91-100): whatever it returns, [PackOutgoing]
    leaves the two exported keys alone and keeps the cached keys
    consistent; it changes nothing in a context without a private key or
    with a cached public key; and after a successful authenticated send
    both cached keys are there, the products of the private key with the
    base point and with the server's public key. *)
Theorem PackOutgoing_cache (client client' : clientX25519AESGCM128) (data : bytes)
    (rand_Reader rand_Reader' : Reader) (r : result (bytes * clientReplyState)) :
  PackOutgoing client data rand_Reader = (r, client', rand_Reader') ->
  ServerPublicKey client' = ServerPublicKey client /\
  ClientPrivateKey client' = ClientPrivateKey client /\
  (ClientPrivateKey client = None \/ clientPublicKey client <> None -> client' = client) /\
  (clientKeysConsistent client -> clientKeysConsistent client') /\
  (forall priv packet st,
     clientKeysConsistent client -> ClientPrivateKey client = Some priv ->
     r = Ok (packet, st) ->
     exists pub shared,
       X25519 priv Basepoint = Some pub /\
       X25519 priv (ServerPublicKey client) = Some shared /\
       clientPublicKey client' = Some pub /\ clientServerPublicKey client' = Some shared).
Proof.
  intros Hpack.
  destruct (PackOutgoing_context _ _ _ _ _ _ Hpack) as [Hc | (priv & Hp & Hc)].
  { subst client'. split; [reflexivity|]. split; [reflexivity|].
    split; [reflexivity|]. split; [tauto|].
    intros priv packet st Hcons Hp ->.
    destruct (PackOutgoing_inv _ _ _ _ _ _ _ Hcons Hpack)
      as (secret & dhParam & sharedSecret & plaintext & _ & _ & Hmode & Hkeys).
    rewrite Hp in Hkeys. destruct Hkeys as (pub & shared & Hb & Hs & _).
    unfold clientKeysConsistent in Hcons. rewrite Hp in Hcons.
    destruct Hcons as [Hnone | [Hpub Hshared]].
    - exfalso. apply Hmode in Hnone. unfold hasPrivateKey in Hnone.
      rewrite Hp in Hnone. discriminate.
    - exists pub, shared. repeat split; congruence. }
  destruct (fillClientKeys_context client priv) as (Hspk & Hpriv & Hkeep).
  rewrite <- Hc in Hspk, Hpriv, Hkeep.
  assert (Hsame : ClientPrivateKey client = None \/ clientPublicKey client <> None ->
                  client' = client).
  { intros [Hnone | Hfilled]; [congruence | exact (Hkeep Hfilled)]. }
  split; [exact Hspk|]. split; [exact Hpriv|]. split; [exact Hsame|]. split.
  - intros Hcons. exact (proj1 (PackOutgoing_keeps_consistent _ _ _ _ _ _ Hcons Hpack)).
  - intros priv' packet st Hcons Hp' ->.
    destruct (PackOutgoing_inv _ _ _ _ _ _ _ Hcons Hpack)
      as (secret & dhParam & sharedSecret & plaintext & _ & _ & Hmode & Hkeys).
    rewrite Hp' in Hkeys. destruct Hkeys as (pub & shared & Hb & Hs & _).
    destruct (PackOutgoing_keeps_consistent _ _ _ _ _ _ Hcons Hpack) as (Hcons' & Hpk & Hsp).
    unfold clientKeysConsistent in Hcons'. rewrite Hpk, Hp', Hsp in Hcons'.
    destruct Hcons' as [Hnone | [Hpub Hshared]].
    + exfalso. apply Hmode in Hnone. unfold hasPrivateKey in Hnone.
      rewrite Hp' in Hnone. discriminate.
    + exists pub, shared. repeat split; congruence.
Qed.

Lemma PackOutgoing_secret (client client' : clientX25519AESGCM128) (data : bytes)
    (rand_Reader rand_Reader' : Reader) (r : result (bytes * clientReplyState)) :
  PackOutgoing client data rand_Reader = (r, client', rand_Reader') ->
  (forall e, r <> Err e) ->
  (32 <= length rand_Reader)%nat /\
  packWithSecret client data (clamp (take 32 rand_Reader)) = (r, client').
Proof.
  unfold PackOutgoing, generateX22519Private, io_ReadFull.
  destruct (decide (32 <= length rand_Reader)%nat) as [Hlen|Hlen].
  - rewrite bool_decide_true by exact Hlen. cbn [mbind result_bind mret result_ret].
    destruct (packWithSecret client data (clamp (take 32 rand_Reader))) as [packed c1].
    intros [= <- <- _] _. auto.
  - rewrite bool_decide_false by exact Hlen.
    destruct rand_Reader; cbn [mbind result_bind]; intros [= <- _ _] Hne;
      exfalso; eapply Hne; reflexivity.
Qed.

(** X20 (PackOutgoing, lines 85-143): the packet in full.  With [e] the
    first 32 bytes of [rand.Reader], clamped, the packet is the header,
    the key agreement value and the plaintext sealed under the derived
    key and client nonce with the header as additional data.  Without a
    client key the value is [X25519(e, Basepoint)], the secret behind the
    key is [X25519(e, ServerPublicKey)] and the plaintext is the payload.
    With a client key the value is [e] times the client's public key, the
    secret is [e] times the client's product with the server's key, and
    the plaintext is the client's public key, then [e] itself, then the
    payload. *)
Theorem request_packet_contents (client client' : clientX25519AESGCM128)
    (data packet : bytes) (rand_Reader rand_Reader' : Reader) (st : clientReplyState) :
  clientKeysConsistent client ->
  PackOutgoing client data rand_Reader = (Ok (packet, st), client', rand_Reader') ->
  let e := clamp (take 32 rand_Reader) in
  let h := binary_Write [] (requestHeaderOf client) in
  match ClientPrivateKey client with
  | None =>
      exists dhParam sharedSecret,
        X25519 e Basepoint = Some dhParam /\
        X25519 e (ServerPublicKey client) = Some sharedSecret /\
        packet = h ++ dhParam ++
                 gcm_seal (kdfKey dhParam sharedSecret)
                          (kdfClientNonce dhParam sharedSecret) data h
  | Some priv =>
      exists pub shared dhParam sharedSecret,
        X25519 priv Basepoint = Some pub /\
        X25519 priv (ServerPublicKey client) = Some shared /\
        X25519 e pub = Some dhParam /\
        X25519 e shared = Some sharedSecret /\
        packet = h ++ dhParam ++
                 gcm_seal (kdfKey dhParam sharedSecret)
                          (kdfClientNonce dhParam sharedSecret) (pub ++ e ++ data) h
  end.
Proof.
  intros Hcons Hpack e h.
  destruct (PackOutgoing_secret _ _ _ _ _ _ Hpack) as (Hlen & Hpws); [discriminate|].
  fold e in Hpws.
  assert (Hel : length e = 32%nat)
    by (subst e; rewrite clamp_length, length_take; lia).
  destruct (ClientPrivateKey client) as [priv|] eqn:Hpriv.
  - destruct (packWithSecret_authenticated _ _ _ _ _ _ _ Hpriv Hcons Hel Hpws)
      as (pub & shared & dhParam & sharedSecret & Hb & Hs & Hdh & Hss & _ & Hseal).
    rewrite sealRequest_closed_form in Hseal.
    apply Ok_pair_inj in Hseal. destruct Hseal as [<- _].
    exists pub, shared, dhParam, sharedSecret. auto.
  - rewrite packWithSecret_anonymous in Hpws by exact Hpriv.
    destruct (X25519 e Basepoint) as [dhParam|] eqn:Hdh; [|discriminate].
    destruct (X25519 e (ServerPublicKey client)) as [sharedSecret|] eqn:Hss;
      [|discriminate].
    cbn [ofX25519 mbind result_bind] in Hpws. rewrite sealRequest_closed_form in Hpws.
    apply pair_equal_spec in Hpws. destruct Hpws as [Hpws _].
    apply Ok_pair_inj in Hpws. destruct Hpws as [<- _].
    exists dhParam, sharedSecret. auto.
Qed.

End Packing.

(** ** What [UnpackIncoming] accepts (lines 197-288) *)

Section Unpacking.
Context {P : Primitives} {L : PrimitiveLaws P}.

Lemma slices_rebuild (p a b c : bytes) :
  slice 0 32 p = Ok a -> slice 32 64 p = Ok b -> sliceFrom 64 p = Ok c ->
  p = a ++ b ++ c /\ length a = 32%nat /\ length b = 32%nat.
Proof.
  unfold slice, sliceFrom.
  case_bool_decide as H1; [|discriminate]. intros [= <-].
  case_bool_decide as H2; [|discriminate]. intros [= <-].
  case_bool_decide as H3; [|discriminate]. intros [= <-].
  rewrite drop_0. change (32 - 0)%nat with 32%nat. change (64 - 32)%nat with 32%nat.
  split; [|split].
  - rewrite <- (take_drop 32 p) at 1. f_equal.
    rewrite <- (take_drop 32 (drop 32 p)) at 1. rewrite drop_drop. reflexivity.
  - rewrite length_take. lia.
  - rewrite length_take, length_drop. lia.
Qed.

Lemma checkClientAuth_inv (o : openedRequest) (data : bytes) (key : option bytes) :
  checkClientAuth o = Ok (data, key) ->
  match key with
  | None => o_hasClientAuth o = false /\ o_payload o = data
  | Some pub =>
      o_hasClientAuth o = true /\
      exists ephemeral,
        o_payload o = pub ++ ephemeral ++ data /\
        length pub = 32%nat /\ length ephemeral = 32%nat /\
        X25519 ephemeral pub = Some (o_dhParam o)
  end.
Proof.
  unfold checkClientAuth. destruct (o_hasClientAuth o).
  - destruct (slice 0 32 (o_payload o)) as [pub|e|] eqn:Hp;
      cbn [mbind result_bind]; [|discriminate..].
    destruct (slice 32 64 (o_payload o)) as [eph|e|] eqn:He;
      cbn [mbind result_bind]; [|discriminate..].
    destruct (X25519 eph pub) as [check|] eqn:Hc;
      cbn [ofX25519 mbind result_bind]; [|discriminate].
    unfold bytes_Equal. case_bool_decide as Heq; cbn [negb]; [|discriminate].
    destruct (sliceFrom 64 (o_payload o)) as [d|e|] eqn:Hd;
      cbn [mbind result_bind mret result_ret]; [|discriminate..].
    intros [= <- <-]. split; [reflexivity|]. exists eph.
    destruct (slices_rebuild _ _ _ _ Hp He Hd) as (Hpay & Hlp & Hle).
    subst check. auto.
  - cbn [mret result_ret]. intros [= <- <-]. auto.
Qed.

(** X6 (UnpackIncoming, lines 197-257): what a packet that is accepted
    has shown.  Its REPLY flag is clear and its suite is [0x01]; the
    AEAD, keyed from bytes 4..36 and their product with the server's
    private key, opened bytes 36.. with bytes 0..4 as additional data;
    without the CLIENT_AUTH flag no client key is returned and the data
    are the whole payload; with it, the key returned is the first 32
    bytes of the payload, the next 32 bytes are a scalar whose product
    with that key is bytes 4..36, and the data are the rest. *)
Theorem accepted_request_was_checked (server : serverX22519AESGCM128)
    (packetBytes data : bytes) (rs : serverReplyState) (key : option bytes) :
  UnpackIncoming server packetBytes = Ok (data, rs, key) ->
  exists h sharedSecret payload,
    binary_Read packetBytes = Ok h /\
    Z.land (Flags h) flagsReply = 0 /\
    CipherSuite h = CipherSuiteX25519AESGCM /\
    slice 4 36 packetBytes = Ok (s_dhParam rs) /\
    X25519 (ServerPrivateKey server) (s_dhParam rs) = Some sharedSecret /\
    gcm_open (kdfKey (s_dhParam rs) sharedSecret)
             (kdfClientNonce (s_dhParam rs) sharedSecret)
             (drop 36 packetBytes) (take 4 packetBytes) = Some payload /\
    match key with
    | None => Z.land (Flags h) flagsClientAuth = 0 /\ payload = data
    | Some pub =>
        Z.land (Flags h) flagsClientAuth <> 0 /\
        exists ephemeral,
          payload = pub ++ ephemeral ++ data /\
          length pub = 32%nat /\ length ephemeral = 32%nat /\
          X25519 ephemeral pub = Some (s_dhParam rs)
    end.
Proof.
  unfold UnpackIncoming.
  destruct (openRequest server packetBytes) as [o|e|] eqn:Ho; cbn [mbind result_bind];
    [|discriminate..].
  destruct (checkClientAuth o) as [[d k]|e|] eqn:Hc; cbn [mbind result_bind mret result_ret];
    [|discriminate..].
  intros [= <- <- <-]. cbn [s_dhParam].
  destruct (openRequest_inv _ _ _ Ho)
    as (h & sharedSecret & ct & ad & Hh & Hreply & Hsuite & Hauth & Hdh & Hss & _ & _
        & Hct & Had & Hopen).
  assert (Hct' : ct = drop 36 packetBytes).
  { revert Hct. unfold sliceFrom. case_bool_decide; intros; congruence. }
  assert (Had' : ad = take 4 packetBytes).
  { revert Had. unfold slice. case_bool_decide; [|discriminate].
    rewrite drop_0. change (4 - 0)%nat with 4%nat. intros; congruence. }
  subst ct ad.
  exists h, sharedSecret, (o_payload o). repeat (split; [assumption|]).
  pose proof (checkClientAuth_inv _ _ _ Hc) as Hk. destruct k as [pub|].
  - destruct Hk as (Hflag & Hrest). split; [|exact Hrest].
    rewrite Hauth in Hflag. intros Hz. rewrite Hz in Hflag. discriminate.
  - destruct Hk as (Hflag & Hpay). split; [|exact Hpay].
    rewrite Hauth in Hflag. apply negb_false_iff, Z.eqb_eq in Hflag. exact Hflag.
Qed.

(** X7 (UnpackIncoming, lines 197-239): no packet of fewer than 52 bytes
    is accepted. *)
Theorem accepted_request_has_52_bytes (server : serverX22519AESGCM128)
    (packetBytes data : bytes) (rs : serverReplyState) (key : option bytes) :
  UnpackIncoming server packetBytes = Ok (data, rs, key) ->
  (52 <= length packetBytes)%nat.
Proof.
  unfold UnpackIncoming.
  destruct (openRequest server packetBytes) as [o|e|] eqn:Ho; cbn [mbind result_bind];
    [|discriminate..].
  intros _.
  destruct (openRequest_inv _ _ _ Ho)
    as (h & sharedSecret & ct & ad & _ & _ & _ & _ & Hdh & _ & _ & _ & Hct & _ & Hopen).
  assert (H36 : (36 <= length packetBytes)%nat).
  { revert Hdh. unfold slice. case_bool_decide; [intros; lia|discriminate]. }
  assert (Hct' : ct = drop 36 packetBytes).
  { revert Hct. unfold sliceFrom. case_bool_decide; intros; congruence. }
  subst ct.
  destruct (decide (length (drop 36 packetBytes) < 16)%nat) as [Hshort|Hlong].
  - rewrite gcm_open_short in Hopen by exact Hshort. discriminate.
  - rewrite length_drop in Hlong. lia.
Qed.

(** X8 (UnpackIncoming, lines 241-252): a request with the CLIENT_AUTH
    flag whose opened payload has at least 64 bytes is refused unless the
    scalar in bytes 32..64 of the payload times the key in bytes 0..32 is
    the key agreement value of the packet: with "Client authentication
    failed" when the product is another value, with the error of [X25519]
    when there is none. *)
Theorem unproved_client_key_is_refused (server : serverX22519AESGCM128)
    (packetBytes : bytes) (o : openedRequest) :
  openRequest server packetBytes = Ok o ->
  o_hasClientAuth o = true ->
  (64 <= length (o_payload o))%nat ->
  X25519 (take 32 (drop 32 (o_payload o))) (take 32 (o_payload o)) <> Some (o_dhParam o) ->
  UnpackIncoming server packetBytes
  = Err (match X25519 (take 32 (drop 32 (o_payload o))) (take 32 (o_payload o)) with
         | Some _ => PSSSTError "Client authentication failed"
         | None => X25519_error
         end).
Proof.
  intros Ho Hauth Hlen Hne. unfold UnpackIncoming. rewrite Ho.
  cbn [mbind result_bind]. unfold checkClientAuth. rewrite Hauth.
  rewrite (slice_ok 0 32), (slice_ok 32 64) by lia. cbn [mbind result_bind].
  rewrite drop_0. change (32 - 0)%nat with 32%nat. change (64 - 32)%nat with 32%nat.
  destruct (X25519 _ _) as [check|]; cbn [ofX25519 mbind result_bind]; [|reflexivity].
  unfold bytes_Equal. rewrite bool_decide_false by congruence. reflexivity.
Qed.

(** X9 (UnpackIncoming, lines 241-254): the check of the client key does
    not ask for a private key when the key is the base point.  Any party
    that knows the server's public key can run the anonymous key schedule
    with a secret of its own, set CLIENT_AUTH, and put the base point and
    that secret before the payload: the request is accepted and the base
    point is returned as the client's public key. *)
Theorem base_point_passes_as_client_key (server : serverX22519AESGCM128)
    (serverPublic secret data packetBytes : bytes) (st : clientReplyState) :
  X25519 (ServerPrivateKey server) Basepoint = Some serverPublic ->
  craftRequest {| Flags := flagsClientAuth; CipherSuite := CipherSuiteX25519AESGCM |}
               secret serverPublic (Basepoint ++ secret ++ data) = Ok (packetBytes, st) ->
  exists rs, UnpackIncoming server packetBytes = Ok (data, rs, Some Basepoint).
Proof.
  intros Hkey. unfold craftRequest.
  destruct (X25519 secret Basepoint) as [dhParam|] eqn:Hdh; [|discriminate].
  destruct (X25519 secret serverPublic) as [sharedSecret|] eqn:Hss; [|discriminate].
  cbn [ofX25519 mbind result_bind]. rewrite sealRequest_closed_form.
  intros Hseal. apply Ok_pair_inj in Hseal. destruct Hseal as [<- <-].
  pose proof (X25519_length _ _ _ Hdh) as (Hsl & Hbl & Hdl).
  eexists. unfold UnpackIncoming.
  rewrite (openRequest_layout server _ dhParam sharedSecret).
  - rewrite gcm_open_seal. cbn [mbind result_bind]. unfold checkClientAuth.
    cbn [o_hasClientAuth o_payload o_dhParam Flags Z.land flagsClientAuth Pos.land
         Z.eqb negb].
    destruct (extended_split Basepoint secret data Hbl Hsl) as (-> & -> & ->).
    cbn [mbind result_bind]. rewrite Hdh. cbn [ofX25519 mbind result_bind].
    unfold bytes_Equal. rewrite bool_decide_true by reflexivity. reflexivity.
  - split; cbv; split; congruence.
  - reflexivity.
  - reflexivity.
  - exact Hdl.
  - rewrite (X25519_swap _ _ _ _ _ Hdh Hkey). exact Hss.
Qed.

End Unpacking.

(** ** The two reply closures (lines 146-179 and 259-285) *)

Section Replies.
Context {P : Primitives} {L : PrimitiveLaws P}.

(** X10 (the server's reply closure, lines 259-285): the reply to an
    accepted request is a header with the REPLY flag, with CLIENT_AUTH
    exactly when the request had it and with no other flag of the request
    carried over, then bytes 4..36 of the request, then the ciphertext;
    where sealing adds a 16-byte tag it is 52 bytes longer than the reply
    payload. *)
Theorem reply_packet_layout (server : serverX22519AESGCM128)
    (packetBytes data reply : bytes) (rs : serverReplyState) (key : option bytes) :
  (forall k n p ad, length (gcm_seal k n p ad) = (length p + 16)%nat) ->
  UnpackIncoming server packetBytes = Ok (data, rs, key) ->
  exists h replyPacket rs',
    binary_Read packetBytes = Ok h /\
    serverReplyHandler rs reply = (Ok replyPacket, rs') /\
    binary_Read replyPacket
    = Ok {| Flags := if Z.land (Flags h) flagsClientAuth =? 0
                     then flagsReply else Z.lor flagsReply flagsClientAuth;
            CipherSuite := CipherSuiteX25519AESGCM |} /\
    slice 4 36 replyPacket = slice 4 36 packetBytes /\
    length replyPacket = (52 + length reply)%nat.
Proof.
  intros Htag Hun.
  destruct (UnpackIncoming_state _ _ _ _ _ Hun) as (h & g & Hh & Hg & Hauth & Hdh & Hn).
  destruct rs as [a auth dh n]. cbn [s_aesgcm s_hasClientAuth s_dhParam s_serverNonce] in *.
  subst a.
  assert (Hdl : length dh = 32%nat).
  { revert Hdh. unfold slice. case_bool_decide as Hb; [|discriminate].
    intros [= <-]. rewrite length_take, length_drop. lia. }
  destruct (replyHeaderOf_fits auth) as (Hfit & _).
  exists h. eexists. eexists. split; [exact Hh|].
  split; [apply serverReplyHandler_fresh; exact Hn|].
  destruct (packet_slices (replyHeaderOf auth) dh
              (gcm_seal (gcmKey g) n reply (binary_Write [] (replyHeaderOf auth))) Hdl)
    as (Hs & _).
  split; [|split].
  - rewrite binary_Read_Write by exact Hfit. unfold replyHeaderOf. rewrite Hauth.
    destruct (Z.land (Flags h) flagsClientAuth =? 0); reflexivity.
  - rewrite Hs, Hdh. reflexivity.
  - rewrite !length_app, Htag, Hdl. cbn [length binary_Write app]. lia.
Qed.

(** X11 (the client's reply closure, lines 146-179): what a reply that
    is decoded has shown.  The closure had not been used; the packet has
    the REPLY flag and suite [0x01]; it has CLIENT_AUTH exactly when the
    client context holds a cached public key; its bytes 4..36 are the key
    agreement value of the request; the AEAD of the request opened bytes
    36.. under the server nonce with bytes 0..4 as additional data; the
    packet has at least 52 bytes; and the closure is now used up. *)
Theorem decoded_reply_was_checked (st st' : clientReplyState)
    (client : clientX25519AESGCM128) (replyPacketBytes plaintext : bytes) :
  clientReplyHandler st client replyPacketBytes = (Ok plaintext, st') ->
  exists g h,
    c_aesgcm st = Some g /\
    binary_Read replyPacketBytes = Ok h /\
    Z.land (Flags h) flagsReply <> 0 /\
    (clientPublicKey client = None <-> Z.land (Flags h) flagsClientAuth = 0) /\
    CipherSuite h = CipherSuiteX25519AESGCM /\
    slice 4 36 replyPacketBytes = Ok (c_dhParam st) /\
    gcm_open (gcmKey g) (c_serverNonce st) (drop 36 replyPacketBytes)
             (take 4 replyPacketBytes) = Some plaintext /\
    (52 <= length replyPacketBytes)%nat /\
    c_aesgcm st' = None.
Proof.
  unfold clientReplyHandler.
  destruct (c_aesgcm st) as [g|]; [|discriminate].
  destruct (binary_Read replyPacketBytes) as [h|e|]; [|discriminate..].
  destruct (Z.eqb_spec (Z.land (Flags h) flagsReply) 0) as [|Hreply]; [discriminate|].
  destruct (negb (eqb _ _)) eqn:Hmode; [discriminate|].
  assert (Hmode' : clientPublicKey client = None
                   <-> Z.land (Flags h) flagsClientAuth = 0).
  { apply negb_false_iff, eqb_prop in Hmode.
    destruct (Z.eqb_spec (Z.land (Flags h) flagsClientAuth) 0) as [Hz|Hz];
      destruct (decide (clientPublicKey client = None)) as [Hk|Hk];
      rewrite ?(bool_decide_true _ Hk), ?(bool_decide_false _ Hk) in Hmode;
      try discriminate; tauto. }
  clear Hmode.
  destruct (Z.eqb_spec (CipherSuite h) CipherSuiteX25519AESGCM) as [Hsuite|];
    cbn [negb]; [|discriminate].
  destruct (slice 4 36 replyPacketBytes) as [bound|e|] eqn:Hb; [|discriminate..].
  assert (H36 : (36 <= length replyPacketBytes)%nat).
  { apply slice_inv in Hb. lia. }
  unfold bytes_Equal.
  destruct (decide (bound = c_dhParam st)) as [Hbound|Hbound];
    [rewrite bool_decide_true by exact Hbound
    |rewrite bool_decide_false by exact Hbound; discriminate].
  cbn [negb].
  rewrite sliceFrom_ok, (slice_ok 0 4) by lia. cbn [mbind result_bind mret result_ret].
  rewrite drop_0. change (4 - 0)%nat with 4%nat.
  unfold Open.
  destruct (decide (length (c_serverNonce st) = 12%nat)) as [Hn|Hn];
    [rewrite bool_decide_true by exact Hn
    |rewrite bool_decide_false by exact Hn; discriminate].
  destruct (gcm_open _ _ _ _) as [p|] eqn:Hopen; [|discriminate].
  intros [= <- <-]. exists g, h. split; [reflexivity|]. split; [reflexivity|].
  split; [exact Hreply|]. split; [exact Hmode'|].
  split; [exact Hsuite|]. split; [congruence|].
  split; [exact Hopen|]. split; [|reflexivity].
  destruct (decide (length (drop 36 replyPacketBytes) < 16)%nat) as [Hshort|Hlong].
  - rewrite gcm_open_short in Hopen by exact Hshort. discriminate.
  - rewrite length_drop in Hlong. lia.
Qed.

(** X12 (both closures and both entry points): packets keep their
    direction.  A request that [PackOutgoing] made is refused by every
    unused client reply closure with "Packet is not a reply", the closure
    staying usable, and a reply that a server's closure made is refused by
    every server with "Packet is a reply". *)
Theorem genuine_packets_keep_their_direction :
  (forall (client client' other : clientX25519AESGCM128) (data packet : bytes)
          (rand_Reader rand_Reader' : Reader) (st st0 : clientReplyState) (g : AEAD),
     clientKeysConsistent client ->
     PackOutgoing client data rand_Reader = (Ok (packet, st), client', rand_Reader') ->
     c_aesgcm st0 = Some g ->
     clientReplyHandler st0 other packet
     = (Err (PSSSTError "Packet is not a reply"), st0)) /\
  (forall (server server' : serverX22519AESGCM128) (packetBytes data reply replyPacket : bytes)
          (rs rs' : serverReplyState) (key : option bytes),
     UnpackIncoming server packetBytes = Ok (data, rs, key) ->
     serverReplyHandler rs reply = (Ok replyPacket, rs') ->
     UnpackIncoming server' replyPacket = Err (PSSSTError "Packet is a reply")).
Proof.
  split.
  - intros client client' other data packet rd rd' st st0 g Hcons Hpack Hg.
    destruct (PackOutgoing_layout _ _ _ _ _ _ _ Hcons Hpack)
      as (dh & g1 & n & ct & _ & _ & -> & _ & _).
    destruct (requestHeaderOf_fits client) as (Hfit & Hreply & _).
    unfold clientReplyHandler. rewrite Hg, binary_Read_Write by exact Hfit.
    rewrite Hreply. reflexivity.
  - intros server server' packetBytes data reply replyPacket rs rs' key Hun Hreply.
    destruct (UnpackIncoming_state _ _ _ _ _ Hun) as (h & g & _ & Hg & _ & _ & Hn).
    destruct rs as [a auth dh n]. cbn [s_aesgcm s_serverNonce] in *. subst a.
    rewrite serverReplyHandler_fresh in Hreply by exact Hn.
    apply pair_equal_spec in Hreply. destruct Hreply as [Hreply _].
    match type of Hreply with
    | Ok ?made = Ok _ => assert (Hmade : replyPacket = made) by congruence
    end.
    rewrite Hmade. destruct (replyHeaderOf_fits auth) as (Hfit & Hflag & _).
    unfold UnpackIncoming, openRequest. rewrite binary_Read_Write by exact Hfit.
    cbn [mbind result_bind]. rewrite Hflag. reflexivity.
Qed.

(** X13 (kdfX25519AESGCM128, lines 70-75): the nonce for requests of one
    derivation is never the nonce for replies of that or any other
    derivation: the last four bytes tell the directions apart. *)
Theorem request_and_reply_nonces_differ (dhParam sharedSecret dhParam' sharedSecret' : bytes)
    (key iv_c iv_s key' iv_c' iv_s' : bytes) :
  kdfX25519AESGCM128 dhParam sharedSecret = Ok (key, iv_c, iv_s) ->
  kdfX25519AESGCM128 dhParam' sharedSecret' = Ok (key', iv_c', iv_s') ->
  iv_c <> iv_s' /\ drop 8 iv_c = stringBytes "RQST" /\ drop 8 iv_s' = stringBytes "RPLY".
Proof.
  rewrite !kdf_closed_form. intros [= _ <- _] [= _ _ <-].
  unfold kdfClientNonce, kdfServerNonce.
  assert (H1 : length (take 8 (drop 16 (kdfDigest dhParam sharedSecret))) = 8%nat)
    by (rewrite length_take, length_drop, kdfDigest_length; reflexivity).
  assert (H2 : length (take 8 (drop 24 (kdfDigest dhParam' sharedSecret'))) = 8%nat)
    by (rewrite length_take, length_drop, kdfDigest_length; reflexivity).
  split; [|split].
  - intros Heq. apply app_inj_1 in Heq; [|congruence]. destruct Heq as [_ Heq].
    discriminate Heq.
  - rewrite drop_app_length' by (symmetry; exact H1). reflexivity.
  - rewrite drop_app_length' by (symmetry; exact H2). reflexivity.
Qed.

(** X14 (the client's reply closure, line 162): the closure reads
    [client.clientPublicKey] when it runs.  Given the reply the server
    made for its request, it decodes the reply when the client context
    then has a cached public key exactly if the request was authenticated,
    and otherwise refuses it with "Reply client auth mismatch" and stays
    usable. *)
Theorem decoder_reads_current_context (server : serverX22519AESGCM128)
    (client client' clientNow : clientX25519AESGCM128) (data packet reply : bytes)
    (rand_Reader rand_Reader' : Reader) (st : clientReplyState) :
  X25519 (ServerPrivateKey server) Basepoint = Some (ServerPublicKey client) ->
  clientKeysConsistent client ->
  PackOutgoing client data rand_Reader = (Ok (packet, st), client', rand_Reader') ->
  exists plaintext replyState clientKey replyPacket replyState',
    UnpackIncoming server packet = Ok (plaintext, replyState, clientKey) /\
    serverReplyHandler replyState reply = (Ok replyPacket, replyState') /\
    clientReplyHandler st clientNow replyPacket
    = if eqb (bool_decide (clientPublicKey clientNow = None)) (negb (hasPrivateKey client))
      then (Ok reply, {| c_aesgcm := None; c_dhParam := c_dhParam st;
                         c_serverNonce := c_serverNonce st |})
      else (Err (PSSSTError "Reply client auth mismatch"), st).
Proof.
  intros Hkey Hcons Hpack.
  destruct (pack_then_unpack _ _ _ _ _ _ _ _ Hkey Hcons Hpack)
    as (dhParam & sharedSecret & Hdl & -> & _ & Hun).
  pose proof (kdfServerNonce_length dhParam sharedSecret) as Hn.
  do 5 eexists. split; [exact Hun|]. split; [apply serverReplyHandler_fresh; exact Hn|].
  rewrite clientReplyHandler_layout by assumption. cbn [c_dhParam c_serverNonce].
  destruct (eqb _ _); cbn [negb]; [|reflexivity].
  unfold bytes_Equal. rewrite bool_decide_true by reflexivity.
  cbn [negb gcmKey]. rewrite gcm_open_seal. reflexivity.
Qed.

(** X15 (PackOutgoing and UnpackIncoming, lines 101-122 and 216-224):
    the server derives the session the client derived.  The reply closure
    the server gets holds the AEAD key, the key agreement value and the
    server nonce that the client's reply closure holds, and has the
    client-authentication mode of the request. *)
Theorem both_ends_hold_the_same_session (server : serverX22519AESGCM128)
    (client client' : clientX25519AESGCM128) (data packet : bytes)
    (rand_Reader rand_Reader' : Reader) (st : clientReplyState) :
  X25519 (ServerPrivateKey server) Basepoint = Some (ServerPublicKey client) ->
  clientKeysConsistent client ->
  PackOutgoing client data rand_Reader = (Ok (packet, st), client', rand_Reader') ->
  exists plaintext rs clientKey,
    UnpackIncoming server packet = Ok (plaintext, rs, clientKey) /\
    s_aesgcm rs = c_aesgcm st /\ is_Some (c_aesgcm st) /\
    s_dhParam rs = c_dhParam st /\
    s_serverNonce rs = c_serverNonce st /\
    s_hasClientAuth rs = hasPrivateKey client.
Proof.
  intros Hkey Hcons Hpack.
  destruct (pack_then_unpack _ _ _ _ _ _ _ _ Hkey Hcons Hpack)
    as (dhParam & sharedSecret & _ & -> & _ & Hun).
  do 3 eexists. split; [exact Hun|].
  cbn [s_aesgcm s_dhParam s_serverNonce s_hasClientAuth c_aesgcm c_dhParam c_serverNonce].
  repeat split; eauto.
Qed.

(** X16 (generateX22519Pair, lines 51-61): a pair that is returned is a
    clamped 32-byte private key and its X25519 public key, and it serves
    as a server identity: what a client context built on the public key
    packs, a server context built on the private key unpacks to the same
    payload. *)
Theorem generated_pair_serves (random random' : option Reader)
    (rand_Reader rand_Reader' : Reader) (priv pub : bytes) :
  generateX22519Pair random rand_Reader = (Ok (priv, pub), random', rand_Reader') ->
  X25519 priv Basepoint = Some pub /\
  priv = clamp (take 32 (sourceUsed random rand_Reader)) /\
  length priv = 32%nat /\ length pub = 32%nat /\
  (forall (clientPrivate : option bytes) (data packet : bytes) (rd rd' : Reader)
          (st : clientReplyState) (client' : clientX25519AESGCM128),
     PackOutgoing (newClient pub clientPrivate) data rd = (Ok (packet, st), client', rd') ->
     exists rs,
       UnpackIncoming (newServer priv) packet
       = Ok (data, rs, clientPrivate ≫= (fun k => X25519 k Basepoint))).
Proof.
  unfold generateX22519Pair.
  destruct (generateX22519Private random rand_Reader) as [[r o] rd0] eqn:Hgen.
  destruct r as [secret|e|]; cbn [mbind result_bind]; [|discriminate..].
  destruct (X25519 secret Basepoint) as [q|] eqn:Hq;
    cbn [ofX25519 mbind result_bind mret result_ret]; [|discriminate].
  intros [= <- <- _ _].
  destruct (generateX22519Private_inv _ _ _ _ _ Hgen) as (_ & Hsecret & _).
  pose proof (X25519_length _ _ _ Hq) as (Hsl & _ & Hql).
  split; [exact Hq|]. split; [exact Hsecret|]. split; [exact Hsl|]. split; [exact Hql|].
  intros clientPrivate data packet rd rd' st client' Hpack.
  destruct (pack_then_unpack (newServer secret) (newClient q clientPrivate)
              _ _ _ _ _ _ Hq (newClient_consistent q clientPrivate) Hpack)
    as (dhParam & sharedSecret & _ & _ & _ & Hun).
  eexists. exact Hun.
Qed.

(** X17 (GetServerPublicKey, lines 186-195): the public key is computed
    at most once.  The call never changes the private key; on a context
    without a cached key it returns what [X25519] makes of the private
    key and the base point and caches it; on a context with a cached key
    it returns that key and changes nothing; calling it again returns the
    same answer and the same context; and what a client context built on
    the key of a fresh server context packs, the server context unpacks,
    before the call and after it. *)
Theorem GetServerPublicKey_caches (server : serverX22519AESGCM128) :
  let r := fst (GetServerPublicKey server) in
  let server' := snd (GetServerPublicKey server) in
  ServerPrivateKey server' = ServerPrivateKey server /\
  GetServerPublicKey server' = (r, server') /\
  (forall key, serverPublicKey server = Some key -> r = Ok key /\ server' = server) /\
  (serverPublicKey server = None ->
   r = ofX25519 (X25519 (ServerPrivateKey server) Basepoint) /\
   serverPublicKey server' = X25519 (ServerPrivateKey server) Basepoint /\
   forall (key : bytes) (clientPrivate : option bytes) (data packet : bytes)
          (rd rd' : Reader) (st : clientReplyState) (client' : clientX25519AESGCM128),
     r = Ok key ->
     PackOutgoing (newClient key clientPrivate) data rd = (Ok (packet, st), client', rd') ->
     exists rs,
       UnpackIncoming server packet
       = Ok (data, rs, clientPrivate ≫= (fun k => X25519 k Basepoint)) /\
       UnpackIncoming server' packet = UnpackIncoming server packet).
Proof.
  unfold GetServerPublicKey. destruct (serverPublicKey server) as [key|] eqn:Hk.
  - cbn [fst snd]. rewrite Hk. repeat split; try discriminate; congruence.
  - cbn [fst snd ServerPrivateKey serverPublicKey].
    split; [reflexivity|]. split.
    { destruct (X25519 (ServerPrivateKey server) Basepoint) as [pub|] eqn:Hpub;
        cbn [ofX25519]; rewrite ?Hpub; reflexivity. }
    split; [discriminate|]. intros _. split; [reflexivity|]. split; [reflexivity|].
    intros key clientPrivate data packet rd rd' st client' Hr Hpack.
    destruct (X25519 (ServerPrivateKey server) Basepoint) as [pub|] eqn:Hpub;
      cbn [ofX25519] in Hr; [|discriminate].
    injection Hr as ->.
    destruct (pack_then_unpack server (newClient key clientPrivate)
                _ _ _ _ _ _ Hpub (newClient_consistent key clientPrivate) Hpack)
      as (dhParam & sharedSecret & _ & _ & _ & Hun).
    eexists. split; [exact Hun|]. reflexivity.
Qed.

End Replies.

(** ** Where the file panics (lines 170, 216, 242-243) *)

Section Panics.
Context {P : Primitives} {L : PrimitiveLaws P}.

Lemma openRequest_panics_iff (server : serverX22519AESGCM128) (packetBytes : bytes) :
  openRequest server packetBytes = Panic <->
  exists h, binary_Read packetBytes = Ok h /\
            Z.land (Flags h) flagsReply = 0 /\
            CipherSuite h = CipherSuiteX25519AESGCM /\
            (length packetBytes < 36)%nat.
Proof.
  unfold openRequest. split.
  - destruct (binary_Read packetBytes) as [h|e|] eqn:Hh; cbn [mbind result_bind];
      [|discriminate|destruct packetBytes as [|? [|? [|? [|? ?]]]]; discriminate].
    destruct (Z.eqb_spec (Z.land (Flags h) flagsReply) 0) as [Hreply|]; cbn [negb];
      [|discriminate].
    destruct (Z.eqb_spec (CipherSuite h) CipherSuiteX25519AESGCM) as [Hsuite|]; cbn [negb];
      [|discriminate].
    destruct (decide (length packetBytes < 36)%nat) as [Hshort|Hlong]; [eauto 6|].
    rewrite (slice_ok 4 36) by lia. cbn [mbind result_bind].
    destruct (X25519 _ _); cbn [ofX25519 mbind result_bind]; [|discriminate].
    rewrite kdf_closed_form. cbn [mbind result_bind].
    rewrite aes_NewCipher_kdfKey. cbn [mbind result_bind cipher_NewGCM].
    rewrite sliceFrom_ok, (slice_ok 0 4) by lia. cbn [mbind result_bind].
    rewrite Open_ok by apply kdfClientNonce_length.
    destruct (gcm_open _ _ _ _); discriminate.
  - intros (h & -> & Hreply & Hsuite & Hlen). cbn [mbind result_bind].
    rewrite Hreply, Hsuite. cbn [Z.eqb Pos.eqb negb CipherSuiteX25519AESGCM].
    rewrite (slice_panics 4 36) by exact Hlen. reflexivity.
Qed.

Lemma checkClientAuth_panics_iff (o : openedRequest) :
  checkClientAuth o = Panic <->
  o_hasClientAuth o = true /\ (length (o_payload o) < 64)%nat.
Proof.
  unfold checkClientAuth. split.
  - destruct (o_hasClientAuth o); [|discriminate].
    destruct (decide (length (o_payload o) < 64)%nat) as [Hshort|Hlong]; [auto|].
    rewrite (slice_ok 0 32), (slice_ok 32 64) by lia. cbn [mbind result_bind].
    destruct (X25519 _ _); cbn [ofX25519 mbind result_bind]; [|discriminate].
    destruct (negb (bytes_Equal _ _)); [discriminate|].
    rewrite sliceFrom_ok by lia. discriminate.
  - intros [-> Hlen].
    destruct (decide (32 <= length (o_payload o))%nat) as [H32|H32].
    + rewrite (slice_ok 0 32) by lia. cbn [mbind result_bind].
      rewrite (slice_panics 32 64) by lia. reflexivity.
    + rewrite (slice_panics 0 32) by lia. reflexivity.
Qed.



End Panics.

(** * The further properties on the small suite *)

Lemma Toy_tag_length (k n p ad : bytes) :
  length (Toy.gcm_seal k n p ad) = (length p + 16)%nat.
Proof.
  unfold Toy.gcm_seal, Toy.tag.
  rewrite length_app, length_fmap, digest_length. reflexivity.
Qed.

Lemma source1_bytes : Forall isByte Toy.source1.
Proof.
  unfold Toy.source1. apply Forall_fmap, Forall_forall. intros n Hn.
  apply elem_of_seq in Hn. unfold isByte, compose. lia.
Qed.

Section MoreRuns.
#[local] Existing Instance Toy.prims.
#[local] Existing Instance Toy_laws.

Lemma generated_scalar_is_clamped_witness :
  length (clamp (take 32 Toy.source1)) = 32%nat /\
  (exists b0 b31,
     clamp (take 32 Toy.source1) !! 0%nat = Some b0 /\
     clamp (take 32 Toy.source1) !! 31%nat = Some b31 /\
     Z.land b0 7 = 0 /\ Z.land b31 128 = 0 /\ Z.land b31 64 <> 0) /\
  (forall i, (0 < i < 31)%nat ->
     clamp (take 32 Toy.source1) !! i = sourceUsed None Toy.source1 !! i).
Proof.
  apply (generated_scalar_is_clamped None None Toy.source1 (drop 32 Toy.source1)).
  vm_compute. reflexivity.
Defined.

Lemma generated_scalar_in_range_witness :
  2 ^ 254 <= littleEndian (clamp (take 32 Toy.source1)) < 2 ^ 255 /\
  littleEndian (clamp (take 32 Toy.source1)) mod 8 = 0.
Proof.
  apply (generated_scalar_in_range None None Toy.source1 (drop 32 Toy.source1)).
  - exact source1_bytes.
  - vm_compute. reflexivity.
Defined.

Lemma PackOutgoing_outcomes_witness :
  PackOutgoing Toy.authenticated Toy.hi (take 31 Toy.source1)
  = (Err io_ErrUnexpectedEOF, Toy.authenticated, []).
Proof.
  apply (proj1 (PackOutgoing_outcomes (L := Toy_laws) Toy.authenticated Toy.hi
                  (take 31 Toy.source1))).
  vm_compute. lia.
Defined.

Lemma request_packet_layout_witness :
  binary_Read (packetOf Toy.run2)
  = Ok {| Flags := if hasPrivateKey Toy.authenticated then flagsClientAuth else 0;
          CipherSuite := CipherSuiteX25519AESGCM |} /\
  take 4 (packetOf Toy.run2) = [0; if hasPrivateKey Toy.authenticated then 2 else 0; 1; 0] /\
  slice 4 36 (packetOf Toy.run2) = Ok (c_dhParam (closureOf Toy.run2)) /\
  length (packetOf Toy.run2)
  = ((if hasPrivateKey Toy.authenticated then 116 else 52) + length Toy.hi)%nat.
Proof.
  apply (request_packet_layout (L := Toy_laws) Toy.authenticated (clientOf Toy.run2)
           Toy.hi (packetOf Toy.run2) Toy.source2 (readerOf Toy.run2) (closureOf Toy.run2)).
  - exact Toy_tag_length.
  - apply newClient_consistent.
  - vm_compute. reflexivity.
Defined.

Lemma PackOutgoing_cache_witness :
  exists pub shared,
    X25519 Toy.clientPrivate Basepoint = Some pub /\
    X25519 Toy.clientPrivate (ServerPublicKey Toy.authenticated) = Some shared /\
    clientPublicKey (clientOf Toy.run2) = Some pub /\
    clientServerPublicKey (clientOf Toy.run2) = Some shared.
Proof.
  apply (proj2 (proj2 (proj2 (proj2
           (PackOutgoing_cache (L := Toy_laws) Toy.authenticated (clientOf Toy.run2) Toy.hi
              Toy.source2 (readerOf Toy.run2) (fst (fst Toy.run2))
              ltac:(vm_compute; reflexivity)))))
           Toy.clientPrivate (packetOf Toy.run2) (closureOf Toy.run2)).
  - apply newClient_consistent.
  - reflexivity.
  - vm_compute. reflexivity.
Defined.

Lemma accepted_request_was_checked_witness :
  exists h sharedSecret payload,
    binary_Read (packetOf Toy.run2) = Ok h /\
    Z.land (Flags h) flagsReply = 0 /\
    CipherSuite h = CipherSuiteX25519AESGCM /\
    slice 4 36 (packetOf Toy.run2) = Ok (s_dhParam (replyStateOf Scenario.unpacked2)) /\
    X25519 (ServerPrivateKey Toy.server) (s_dhParam (replyStateOf Scenario.unpacked2))
    = Some sharedSecret /\
    gcm_open (kdfKey (s_dhParam (replyStateOf Scenario.unpacked2)) sharedSecret)
             (kdfClientNonce (s_dhParam (replyStateOf Scenario.unpacked2)) sharedSecret)
             (drop 36 (packetOf Toy.run2)) (take 4 (packetOf Toy.run2)) = Some payload /\
    Z.land (Flags h) flagsClientAuth <> 0 /\
    exists ephemeral,
      payload = Toy.xorBytes Toy.clientPrivate Toy.Basepoint ++ ephemeral ++ Toy.hi /\
      length (Toy.xorBytes Toy.clientPrivate Toy.Basepoint) = 32%nat /\
      length ephemeral = 32%nat /\
      X25519 ephemeral (Toy.xorBytes Toy.clientPrivate Toy.Basepoint)
      = Some (s_dhParam (replyStateOf Scenario.unpacked2)).
Proof.
  apply (accepted_request_was_checked (L := Toy_laws) Toy.server (packetOf Toy.run2) Toy.hi
           (replyStateOf Scenario.unpacked2)
           (Some (Toy.xorBytes Toy.clientPrivate Toy.Basepoint))).
  vm_compute. reflexivity.
Defined.

Lemma accepted_request_has_52_bytes_witness : (52 <= length (packetOf Toy.run1))%nat.
Proof.
  apply (accepted_request_has_52_bytes (L := Toy_laws) Toy.server (packetOf Toy.run1) Toy.hi
           (replyStateOf (UnpackIncoming Toy.server (packetOf Toy.run1))) None).
  vm_compute. reflexivity.
Defined.

Lemma unproved_client_key_is_refused_witness :
  UnpackIncoming Toy.server (sealedPacket Scenario.unprovedRequest)
  = Err (match X25519
                 (take 32 (drop 32 (o_payload
                    (openedOf (openRequest Toy.server
                                 (sealedPacket Scenario.unprovedRequest))))))
                 (take 32 (o_payload
                    (openedOf (openRequest Toy.server
                                 (sealedPacket Scenario.unprovedRequest))))) with
         | Some _ => PSSSTError "Client authentication failed"
         | None => X25519_error
         end).
Proof.
  apply (unproved_client_key_is_refused Toy.server (sealedPacket Scenario.unprovedRequest)
           (openedOf (openRequest Toy.server (sealedPacket Scenario.unprovedRequest)))).
  - vm_compute. reflexivity.
  - vm_compute. reflexivity.
  - vm_compute. lia.
  - vm_compute. discriminate.
Defined.

Lemma base_point_passes_as_client_key_witness :
  exists rs, UnpackIncoming Toy.server (sealedPacket Scenario.basePointRequest)
             = Ok (Toy.hi, rs, Some Basepoint).
Proof.
  apply (base_point_passes_as_client_key (L := Toy_laws) Toy.server Toy.serverPublic
           Toy.otherSecret Toy.hi (sealedPacket Scenario.basePointRequest)
           (sealedState Scenario.basePointRequest)).
  - vm_compute. reflexivity.
  - vm_compute. reflexivity.
Defined.

Lemma reply_packet_layout_witness :
  exists h replyPacket rs',
    binary_Read (packetOf Toy.run2) = Ok h /\
    serverReplyHandler (replyStateOf Scenario.unpacked2) Toy.ok = (Ok replyPacket, rs') /\
    binary_Read replyPacket
    = Ok {| Flags := if Z.land (Flags h) flagsClientAuth =? 0
                     then flagsReply else Z.lor flagsReply flagsClientAuth;
            CipherSuite := CipherSuiteX25519AESGCM |} /\
    slice 4 36 replyPacket = slice 4 36 (packetOf Toy.run2) /\
    length replyPacket = (52 + length Toy.ok)%nat.
Proof.
  apply (reply_packet_layout (L := Toy_laws) Toy.server (packetOf Toy.run2) Toy.hi Toy.ok
           (replyStateOf Scenario.unpacked2)
           (Some (Toy.xorBytes Toy.clientPrivate Toy.Basepoint))).
  - exact Toy_tag_length.
  - vm_compute. reflexivity.
Defined.

Lemma decoded_reply_was_checked_witness :
  exists g h,
    c_aesgcm (closureOf Toy.run2) = Some g /\
    binary_Read Scenario.reply2 = Ok h /\
    Z.land (Flags h) flagsReply <> 0 /\
    (clientPublicKey (clientOf Toy.run2) = None <-> Z.land (Flags h) flagsClientAuth = 0) /\
    CipherSuite h = CipherSuiteX25519AESGCM /\
    slice 4 36 Scenario.reply2 = Ok (c_dhParam (closureOf Toy.run2)) /\
    gcm_open (gcmKey g) (c_serverNonce (closureOf Toy.run2)) (drop 36 Scenario.reply2)
             (take 4 Scenario.reply2) = Some Toy.ok /\
    (52 <= length Scenario.reply2)%nat /\
    c_aesgcm (snd (clientReplyHandler (closureOf Toy.run2) (clientOf Toy.run2)
                     Scenario.reply2)) = None.
Proof.
  apply (decoded_reply_was_checked (L := Toy_laws) (closureOf Toy.run2)
           (snd (clientReplyHandler (closureOf Toy.run2) (clientOf Toy.run2) Scenario.reply2))
           (clientOf Toy.run2) Scenario.reply2 Toy.ok).
  vm_compute. reflexivity.
Defined.

Lemma genuine_packets_keep_their_direction_witness :
  clientReplyHandler (closureOf Toy.run2) (clientOf Toy.run2) (packetOf Toy.run1)
  = (Err (PSSSTError "Packet is not a reply"), closureOf Toy.run2) /\
  UnpackIncoming Toy.server Scenario.reply2 = Err (PSSSTError "Packet is a reply").
Proof.
  split.
  - apply (proj1 (genuine_packets_keep_their_direction (L := Toy_laws))
             Toy.anonymous (clientOf Toy.run1) (clientOf Toy.run2) Toy.hi (packetOf Toy.run1)
             Toy.source1 (readerOf Toy.run1) (closureOf Toy.run1) (closureOf Toy.run2)
             {| gcmKey := gcmKey (default {| gcmKey := [] |}
                                    (c_aesgcm (closureOf Toy.run2))) |}).
    + apply newClient_consistent.
    + vm_compute. reflexivity.
    + vm_compute. reflexivity.
  - apply (proj2 (genuine_packets_keep_their_direction (L := Toy_laws))
             Toy.server Toy.server (packetOf Toy.run2) Toy.hi Toy.ok Scenario.reply2
             (replyStateOf Scenario.unpacked2)
             (snd (serverReplyHandler (replyStateOf Scenario.unpacked2) Toy.ok))
             (Some (Toy.xorBytes Toy.clientPrivate Toy.Basepoint))).
    + vm_compute. reflexivity.
    + vm_compute. reflexivity.
Defined.

Lemma request_and_reply_nonces_differ_witness :
  kdfClientNonce Toy.serverPublic Toy.serverPrivate
    <> kdfServerNonce Toy.serverPublic Toy.serverPrivate /\
  drop 8 (kdfClientNonce Toy.serverPublic Toy.serverPrivate) = stringBytes "RQST" /\
  drop 8 (kdfServerNonce Toy.serverPublic Toy.serverPrivate) = stringBytes "RPLY".
Proof.
  apply (request_and_reply_nonces_differ (L := Toy_laws)
           Toy.serverPublic Toy.serverPrivate Toy.serverPublic Toy.serverPrivate
           (kdfKey Toy.serverPublic Toy.serverPrivate)
           (kdfClientNonce Toy.serverPublic Toy.serverPrivate)
           (kdfServerNonce Toy.serverPublic Toy.serverPrivate)
           (kdfKey Toy.serverPublic Toy.serverPrivate)
           (kdfClientNonce Toy.serverPublic Toy.serverPrivate)
           (kdfServerNonce Toy.serverPublic Toy.serverPrivate)).
  - vm_compute. reflexivity.
  - vm_compute. reflexivity.
Defined.

Lemma decoder_reads_current_context_witness :
  exists plaintext replyState clientKey replyPacket replyState',
    UnpackIncoming Toy.server (packetOf Toy.run1) = Ok (plaintext, replyState, clientKey) /\
    serverReplyHandler replyState Toy.ok = (Ok replyPacket, replyState') /\
    clientReplyHandler (closureOf Toy.run1) (clientOf Toy.run2) replyPacket
    = if eqb (bool_decide (clientPublicKey (clientOf Toy.run2) = None))
             (negb (hasPrivateKey Toy.anonymous))
      then (Ok Toy.ok, {| c_aesgcm := None; c_dhParam := c_dhParam (closureOf Toy.run1);
                          c_serverNonce := c_serverNonce (closureOf Toy.run1) |})
      else (Err (PSSSTError "Reply client auth mismatch"), closureOf Toy.run1).
Proof.
  apply (decoder_reads_current_context (L := Toy_laws) Toy.server Toy.anonymous
           (clientOf Toy.run1) (clientOf Toy.run2) Toy.hi (packetOf Toy.run1) Toy.ok
           Toy.source1 (readerOf Toy.run1) (closureOf Toy.run1)).
  - vm_compute. reflexivity.
  - apply newClient_consistent.
  - vm_compute. reflexivity.
Defined.

Lemma both_ends_hold_the_same_session_witness :
  exists plaintext rs clientKey,
    UnpackIncoming Toy.server (packetOf Toy.run2) = Ok (plaintext, rs, clientKey) /\
    s_aesgcm rs = c_aesgcm (closureOf Toy.run2) /\ is_Some (c_aesgcm (closureOf Toy.run2)) /\
    s_dhParam rs = c_dhParam (closureOf Toy.run2) /\
    s_serverNonce rs = c_serverNonce (closureOf Toy.run2) /\
    s_hasClientAuth rs = hasPrivateKey Toy.authenticated.
Proof.
  apply (both_ends_hold_the_same_session (L := Toy_laws) Toy.server Toy.authenticated
           (clientOf Toy.run2) Toy.hi (packetOf Toy.run2) Toy.source2 (readerOf Toy.run2)
           (closureOf Toy.run2)).
  - vm_compute. reflexivity.
  - apply newClient_consistent.
  - vm_compute. reflexivity.
Defined.

Lemma generated_pair_serves_witness :
  X25519 (fst (pairOf Scenario.pairRun)) Basepoint = Some (snd (pairOf Scenario.pairRun)) /\
  fst (pairOf Scenario.pairRun) = clamp (take 32 (sourceUsed None Toy.source1)) /\
  length (fst (pairOf Scenario.pairRun)) = 32%nat /\
  length (snd (pairOf Scenario.pairRun)) = 32%nat.
Proof.
  pose proof (generated_pair_serves (L := Toy_laws) None None Toy.source1
                (drop 32 Toy.source1) (fst (pairOf Scenario.pairRun))
                (snd (pairOf Scenario.pairRun)) ltac:(vm_compute; reflexivity))
    as (H1 & H2 & H3 & H4 & _).
  auto.
Defined.



Lemma request_packet_contents_witness :
  exists pub shared dhParam sharedSecret,
    X25519 Toy.clientPrivate Basepoint = Some pub /\
    X25519 Toy.clientPrivate (ServerPublicKey Toy.authenticated) = Some shared /\
    X25519 (clamp (take 32 Toy.source2)) pub = Some dhParam /\
    X25519 (clamp (take 32 Toy.source2)) shared = Some sharedSecret /\
    packetOf Toy.run2
    = binary_Write [] (requestHeaderOf Toy.authenticated) ++ dhParam ++
      gcm_seal (kdfKey dhParam sharedSecret) (kdfClientNonce dhParam sharedSecret)
               (pub ++ clamp (take 32 Toy.source2) ++ Toy.hi)
               (binary_Write [] (requestHeaderOf Toy.authenticated)).
Proof.
  apply (request_packet_contents (L := Toy_laws) Toy.authenticated (clientOf Toy.run2)
           Toy.hi (packetOf Toy.run2) Toy.source2 (readerOf Toy.run2) (closureOf Toy.run2)).
  - apply newClient_consistent.
  - vm_compute. reflexivity.
Defined.

Lemma GetServerPublicKey_caches_witness :
  GetServerPublicKey (snd (GetServerPublicKey Toy.server))
  = (Ok Toy.serverPublic, snd (GetServerPublicKey Toy.server)).
Proof.
  exact (proj1 (proj2 (GetServerPublicKey_caches (L := Toy_laws) Toy.server))).
Defined.

End MoreRuns.
